(** * WebSense-MCP: the search-result parser, the content extractor and the
    URL inspector of [server.py], embedded in Rocq.

    Python [str] values are sequences of Unicode code points, dictionaries are
    finite maps, the HTML tree built by BeautifulSoup is an inductive tree,
    and the network is an explicit world state threaded through a small
    state-and-exception monad. *)

From Stdlib Require Import ZArith NArith List Ascii String Lia DecimalString.
From stdpp Require Import gmap strings list.

Local Open Scope Z_scope.

(** ** Python strings *)

(** A Python [str]: a sequence of code points. *)
Abbreviation str := (list N).

(** String literals of the source, written as Rocq strings. *)
Definition py (s : string) : str :=
  map (fun a => N_of_ascii a) (list_ascii_of_string s).
Arguments py s%_string.

(** [len(s)] *)
Definition len (s : str) : Z := Z.of_nat (length s).

(** [s.startswith(prefix)] *)
Fixpoint startswith (s prefix : str) {struct prefix} : bool :=
  match prefix, s with
  | [], _ => true
  | p :: prefix', c :: s' => N.eqb p c && startswith s' prefix'
  | _ :: _, [] => false
  end.

(** [sub in s] *)
Fixpoint contains (sub s : str) : bool :=
  startswith s sub ||
  match s with
  | [] => false
  | _ :: s' => contains sub s'
  end.

(** [s.split(sep)] for a non-empty separator: occurrences are found from the
    left and do not overlap.  [skip] counts the characters of the occurrence
    being stepped over, [cur] is the piece under construction (reversed). *)
Fixpoint split_go (sep : str) (skip : nat) (cur : str) (s : str) : list str :=
  match s with
  | [] => [rev cur]
  | c :: s' =>
    match skip with
    | S k => split_go sep k cur s'
    | O =>
      if startswith s sep
      then rev cur :: split_go sep (length sep - 1)%nat [] s'
      else split_go sep O (c :: cur) s'
    end
  end.

Definition split (s sep : str) : list str := split_go sep 0 [] s.

(** [s.split(sep)[0]] *)
Definition first_piece (s sep : str) : str := hd [] (split s sep).

(** [sep.join(parts)] *)
Fixpoint join (sep : str) (parts : list str) : str :=
  match parts with
  | [] => []
  | [x] => x
  | x :: parts' => x ++ sep ++ join sep parts'
  end.

(** [s[:n]], with Python's reading of a negative bound (counted from the
    end, clipped at the start). *)
Definition slice_to {A} (s : list A) (n : Z) : list A :=
  firstn (Z.to_nat (if n <? 0 then Z.of_nat (length s) + n else n)) s.

(** [str(n)] for an [int]. *)
Definition str_of_Z (n : Z) : str := py (NilZero.string_of_int (Z.to_int n)).

(** [c.isspace()]: the code points that [str.strip()] strips and that the
    regular expression [\s] matches on a [str]. *)
Definition isspace (c : N) : bool :=
  (N.leb 9 c && N.leb c 13) || (N.leb 28 c && N.leb c 32) ||
  N.eqb c 133 || N.eqb c 160 || N.eqb c 5760 ||
  (N.leb 8192 c && N.leb c 8202) || N.eqb c 8232 || N.eqb c 8233 ||
  N.eqb c 8239 || N.eqb c 8287 || N.eqb c 12288.

Fixpoint lstrip (s : str) : str :=
  match s with
  | [] => []
  | c :: s' => if isspace c then lstrip s' else s
  end.

Definition rstrip (s : str) : str := rev (lstrip (rev s)).

(** [s.strip()] *)
Definition strip (s : str) : str := rstrip (lstrip s).

(** [re.sub(r'\s+', ' ', s)]: every maximal run of white space becomes one
    space.  [in_run] tells that the previous character was white space. *)
Fixpoint sub_ws_go (in_run : bool) (s : str) : str :=
  match s with
  | [] => []
  | c :: s' =>
    if isspace c
    then (if in_run then sub_ws_go true s' else 32%N :: sub_ws_go true s')
    else c :: sub_ws_go false s'
  end.

Definition sub_ws (s : str) : str := sub_ws_go false s.

(** [re.findall(r'\S+', s)]: the maximal runs of non-space characters; this
    is how BeautifulSoup turns a [class] attribute into its list of tokens. *)
Fixpoint nonwhitespace_go (cur : str) (s : str) : list str :=
  match s with
  | [] => match cur with [] => [] | _ => [rev cur] end
  | c :: s' =>
    if isspace c
    then match cur with
         | [] => nonwhitespace_go [] s'
         | _ => rev cur :: nonwhitespace_go [] s'
         end
    else nonwhitespace_go (c :: cur) s'
  end.

Definition nonwhitespace_findall (s : str) : list str := nonwhitespace_go [] s.

(** [s.lower()] on the ASCII letters.  Python also lowers cased letters
    outside ASCII; none of them lowers to a letter of [text/html] or of
    [content-type], the only strings a lowered value is compared with. *)
Definition lower_char (c : N) : N :=
  if N.leb 65 c && N.leb c 90 then (c + 32)%N else c.

Definition lower (s : str) : str := map lower_char s.

(** *** [urllib.parse.unquote] *)

Definition hexval (c : N) : option N :=
  if N.leb 48 c && N.leb c 57 then Some (c - 48)%N
  else if N.leb 65 c && N.leb c 70 then Some (c - 55)%N
  else if N.leb 97 c && N.leb c 102 then Some (c - 87)%N
  else None.

(** [unquote_to_bytes]: a [%] followed by two hexadecimal digits is one
    byte, any other [%] stands for itself. *)
Fixpoint unquote_to_bytes (s : str) : list N :=
  match s with
  | [] => []
  | c :: s' =>
    if N.eqb c 37 then
      match s' with
      | h1 :: h2 :: s'' =>
        match hexval h1, hexval h2 with
        | Some a, Some b => (16 * a + b)%N :: unquote_to_bytes s''
        | _, _ => c :: unquote_to_bytes s'
        end
      | _ => c :: unquote_to_bytes s'
      end
    else c :: unquote_to_bytes s'
  end.

Definition is_continuation (b : N) : bool := N.leb 128 b && N.leb b 191.

(** The replacement character U+FFFD. *)
Definition REPLACEMENT : N := 65533%N.

(** [bytes.decode('utf-8', 'replace')]: every maximal ill-formed prefix is
    replaced by one U+FFFD and decoding resumes after it. *)
Fixpoint utf8_decode (bs : list N) : str :=
  match bs with
  | [] => []
  | b0 :: r0 =>
    if N.ltb b0 128 then b0 :: utf8_decode r0
    else if N.ltb b0 194 then REPLACEMENT :: utf8_decode r0
    else if N.ltb b0 224 then
      match r0 with
      | [] => [REPLACEMENT]
      | b1 :: r1 =>
        if is_continuation b1
        then ((b0 - 192) * 64 + (b1 - 128))%N :: utf8_decode r1
        else REPLACEMENT :: utf8_decode r0
      end
    else if N.ltb b0 240 then
      match r0 with
      | [] => [REPLACEMENT]
      | b1 :: r1 =>
        if is_continuation b1
           && negb (N.eqb b0 224 && N.ltb b1 160)
           && negb (N.eqb b0 237 && N.leb 160 b1)
        then
          match r1 with
          | [] => [REPLACEMENT]
          | b2 :: r2 =>
            if is_continuation b2
            then ((b0 - 224) * 4096 + (b1 - 128) * 64 + (b2 - 128))%N
                 :: utf8_decode r2
            else REPLACEMENT :: utf8_decode r1
          end
        else REPLACEMENT :: utf8_decode r0
      end
    else if N.ltb b0 245 then
      match r0 with
      | [] => [REPLACEMENT]
      | b1 :: r1 =>
        if is_continuation b1
           && negb (N.eqb b0 240 && N.ltb b1 144)
           && negb (N.eqb b0 244 && N.leb 144 b1)
        then
          match r1 with
          | [] => [REPLACEMENT]
          | b2 :: r2 =>
            if is_continuation b2 then
              match r2 with
              | [] => [REPLACEMENT]
              | b3 :: r3 =>
                if is_continuation b3
                then ((b0 - 240) * 262144 + (b1 - 128) * 4096
                      + (b2 - 128) * 64 + (b3 - 128))%N :: utf8_decode r3
                else REPLACEMENT :: utf8_decode r2
              end
            else REPLACEMENT :: utf8_decode r1
          end
        else REPLACEMENT :: utf8_decode r0
      end
    else REPLACEMENT :: utf8_decode r0
  end.

(** The decoded form of one maximal ASCII run (held reversed). *)
Definition unquote_run (run : str) : str :=
  utf8_decode (unquote_to_bytes (rev run)).

(** Runs of ASCII characters are percent-decoded and read as UTF-8, the
    characters between them pass through. *)
Fixpoint unquote_parts (run : str) (s : str) : str :=
  match s with
  | [] => unquote_run run
  | c :: s' =>
    if N.ltb c 128 then unquote_parts (c :: run) s'
    else unquote_run run ++ c :: unquote_parts [] s'
  end.

(** [urllib.parse.unquote(s)] *)
Definition unquote (s : str) : str :=
  if negb (contains (py "%") s) then s else unquote_parts [] s.

(** ** The tree built by BeautifulSoup *)

(** A tag with its name, its attribute dictionary and its children, a text
    node, or a node that carries no page text (comment, doctype, ...).  The
    [BeautifulSoup] object itself is the tag named [[document]]. *)
#[warnings="-register-all"]
Inductive node : Type :=
| Tag (name : str) (attrs : gmap str str) (contents : list node)
| NavigableString (s : str)
| Comment (s : str).

(** [tag.descendants]: every node below [n], in document order. *)
Fixpoint descendants (n : node) : list node :=
  match n with
  | Tag _ _ cs =>
    (fix go (l : list node) : list node :=
       match l with
       | [] => []
       | c :: l' => c :: descendants c ++ go l'
       end) cs
  | _ => []
  end.

(** [tag.get(key)] *)
Definition get_attr (n : node) (key : str) : option str :=
  match n with
  | Tag _ a _ => a !! key
  | _ => None
  end.

(** [tag.get(key, default)] *)
Definition attr_get (n : node) (key default : str) : str :=
  match get_attr n key with
  | Some v => v
  | None => default
  end.

(** The [name] argument of [find] and [find_all]: only tags match. *)
Definition name_is (nm : str) (n : node) : bool :=
  match n with
  | Tag x _ _ => bool_decide (x = nm)
  | _ => false
  end.

Definition name_in (nms : list str) (n : node) : bool :=
  existsb (fun nm => name_is nm n) nms.

(** The [class_] argument: the attribute is held as its list of tokens; the
    criterion [m] is tried on each token and then on the tokens joined by
    spaces.  A tag without the attribute does not match. *)
Definition class_matches (m : str -> bool) (n : node) : bool :=
  match get_attr n (py "class") with
  | None => false
  | Some v =>
    let tokens := nonwhitespace_findall v in
    existsb m tokens || m (join (py " ") tokens)
  end.

(** [class_='...']: equality with the given string. *)
Definition class_eq (c : str) : str -> bool := fun t => bool_decide (t = c).

(** [class_=re.compile(r'content|main|article')]: [search] succeeds when one
    of the alternatives occurs in the string, letter case included. *)
Definition content_re (t : str) : bool :=
  contains (py "content") t || contains (py "main") t
  || contains (py "article") t.

(** [tag.find_all(...)] and [tag.find(...)] for a criterion [p]. *)
Definition find_all (p : node -> bool) (root : node) : list node :=
  List.filter p (descendants root).

Definition find (p : node -> bool) (root : node) : option node :=
  head (find_all p root).

(** [for t in soup(names): t.decompose()]: the tree without the subtrees
    rooted at a node that satisfies [p]. *)
Fixpoint decompose_all (p : node -> bool) (n : node) : node :=
  match n with
  | Tag nm a cs =>
    Tag nm a
      ((fix go (l : list node) : list node :=
          match l with
          | [] => []
          | c :: l' => if p c then go l' else decompose_all p c :: go l'
          end) cs)
  | _ => n
  end.

(** The text nodes below [n], in document order. *)
Definition strings (n : node) : list str :=
  flat_map (fun d => match d with NavigableString s => [s] | _ => [] end)
           (descendants n).

Definition nonempty (s : str) : bool :=
  match s with [] => false | _ => true end.

(** [tag.get_text(separator=sep, strip=True)]: each text node is stripped,
    the empty ones are dropped, the rest is joined by [sep]. *)
Definition get_text (sep : str) (n : node) : str :=
  join sep (List.filter nonempty (map strip (strings n))).

(** ** Responses, results and effects *)

(** What a call returns: a value, or an exception [e] (an instance of
    [Exception], the class the handlers of this program catch) seen through
    [str(e)], the only thing those handlers use. *)
Inductive outcome (A : Type) : Type :=
| Ok (a : A)
| Raise (e : str).
Arguments Ok {A} a.
Arguments Raise {A} e.

(** An [aiohttp] response: status, headers as name and value pairs in the
    order received, final URL, and what [await response.text()] gives. *)
Record ClientResponse : Type := {
  status : Z;
  headers : list (str * str);
  resp_url : str;
  text : outcome str
}.

(** [response.headers.get(key, default)]: header names are compared without
    regard to case, the first match wins. *)
Fixpoint headers_get (hs : list (str * str)) (key default : str) : str :=
  match hs with
  | [] => default
  | (k, v) :: hs' =>
    if bool_decide (lower k = lower key) then v else headers_get hs' key default
  end.

(** [dict(response.headers)]: a plain dictionary.  Its keys are the header
    names as they stand in the response, each with the value
    [response.headers[name]]; unlike [response.headers], it is looked up by
    the exact name. *)
Definition dict_of_headers (hs : list (str * str)) : gmap str str :=
  fold_left (fun d kv => <[kv.1 := headers_get hs kv.1 []]> d) hs ∅.

(** The values of the returned JSON-like dictionaries. *)
Inductive value : Type :=
| VStr (s : str)
| VInt (n : Z)
| VList (items : list (gmap str str)).

(** [d.get(key, default)] *)
Definition dict_get (d : gmap str str) (key default : str) : str :=
  match d !! key with
  | Some v => v
  | None => default
  end.

(** ** Fixtures *)

(** Pages and responses on which the properties below are tried. *)

Definition tag (name : string) (attrs : list (string * string))
    (contents : list node) : node :=
  Tag (py name) (list_to_map (map (fun kv => (py kv.1, py kv.2)) attrs))
      contents.

Definition text_node (s : string) : node := NavigableString (py s).

Definition page (contents : list node) : node :=
  Tag (py "[document]") ∅ [tag "html" [] [tag "body" [] contents]].

(** A result block as the search provider writes it. *)
Definition title_link (href title : string) : node :=
  tag "a" [("class", "result__a"); ("href", href)] [text_node title].

Definition result_block (href title : string) : node :=
  tag "div" [("class", "result results_links web-result")]
    [tag "h2" [("class", "result__title")] [title_link href title];
     tag "a" [("class", "result__snippet"); ("href", href)]
       [text_node " A snippet. "]].

(** A result block without a title anchor. *)
Definition untitled_block : node :=
  tag "div" [("class", "result result--more")] [text_node "More results"].

Definition block_one : node :=
  result_block "/l/?uddg=https%3A%2F%2Fexample.com%2Fx&rut=abc" "Example".
Definition block_two : node := result_block "https://example.org/" "Second".
Definition block_three : node := result_block "https://example.net/" "Third".

Definition page_three : node := page [block_one; block_two; block_three].

(** A block whose title anchor holds an image and no text, and a block
    whose redirect link has an empty target; both anchors have an href. *)
Definition image_block : node :=
  tag "div" [("class", "result results_links web-result")]
    [tag "h2" [("class", "result__title")]
       [tag "a" [("class", "result__a"); ("href", "https://example.org/")]
          [tag "img" [("src", "logo.png")] []]];
     tag "a" [("class", "result__snippet"); ("href", "https://example.org/")]
       [text_node " A snippet. "]].

Definition empty_target_block : node :=
  result_block "/l/?uddg=&rut=abc" "Empty".

Definition page_bare : node :=
  page [image_block; empty_target_block; block_three].

Definition page_untitled_first : node :=
  page [untitled_block; block_two; block_three].

(** Pages for the choice of the main content. *)
Definition main_element : node := tag "main" [] [text_node "Main text"].

Definition page_with_main : node :=
  page [tag "div" [("class", "content")] [text_node "Side"]; main_element].

Definition section_element : node :=
  tag "section" [("class", "content")] [text_node "A"].

Definition page_with_section : node := page [section_element; text_node "B"].

Definition upper_div : node :=
  tag "div" [("class", "Main-Content")] [text_node "A"].

Definition page_with_upper_div : node := page [upper_div; text_node "B"].

(** A world in which nothing changes: every GET is answered by [r], or
    refused with the message [e]; the parser gives [soup]. *)
Definition serve (r : ClientResponse)
  : str -> list (str * str) -> unit -> outcome ClientResponse * unit :=
  fun _ _ w => (Ok r, w).

Definition refuse (e : str)
  : str -> list (str * str) -> unit -> outcome ClientResponse * unit :=
  fun _ _ w => (Raise e, w).

Definition serve_head (r : ClientResponse)
  : str -> unit -> outcome ClientResponse * unit :=
  fun _ w => (Ok r, w).

Definition parse_as (soup : node) : str -> outcome node := fun _ => Ok soup.

(** A world that counts the requests made. *)
Definition serve_counting (r : ClientResponse)
  : str -> list (str * str) -> nat -> outcome ClientResponse * nat :=
  fun _ _ n => (Ok r, S n).

Definition reply (code : Z) (content_type : string) : ClientResponse :=
  {| status := code;
     headers := [(py "Content-Type", py content_type)];
     resp_url := py "https://example.com/";
     text := Ok [] |}.

Definition html_reply : ClientResponse :=
  reply 200 "text/html; charset=UTF-8".

(** A HEAD answer whose content-type header is written in lower case. *)
Definition head_reply : ClientResponse :=
  {| status := 200;
     headers := [(py "content-type", py "text/html")];
     resp_url := py "https://example.com/";
     text := Ok [] |}.

(** ** The server *)

Section Server.

(** The state of the outside world, the two requests of the HTTP session
    (each may raise, and each moves the world on), and the HTML parser. *)
Context {world : Type}.
Variable session_get :
  str -> list (str * str) -> world -> outcome ClientResponse * world.
Variable session_head : str -> world -> outcome ClientResponse * world.
Variable BeautifulSoup : str -> outcome node.

(** Computations that use the network and may raise. *)
Definition M (A : Type) : Type := world -> outcome A * world.

Definition ret {A} (a : A) : M A := fun w => (Ok a, w).

Definition bind {A B} (m : M A) (k : A -> M B) : M B :=
  fun w =>
    match m w with
    | (Ok a, w') => k a w'
    | (Raise e, w') => (Raise e, w')
    end.

(** A pure call that may raise. *)
Definition lift {A} (o : outcome A) : M A := fun w => (o, w).

(** [try: m  except Exception as e: handler(str(e))] *)
Definition try_except {A} (m : M A) (handler : str -> M A) : M A :=
  fun w =>
    match m w with
    | (Ok a, w') => (Ok a, w')
    | (Raise e, w') => handler e w'
    end.

Notation "x <- m ;; k" := (bind m (fun x => k))
  (at level 100, m at next level, right associativity).

(** *** [fetch_page_content] *)

(** The four criteria of lines 42-45. *)
Definition is_main : node -> bool := name_is (py "main").
Definition is_article : node -> bool := name_is (py "article").
Definition is_content_div (n : node) : bool :=
  name_is (py "div") n && class_matches content_re n.
Definition is_body : node -> bool := name_is (py "body").

(** The main-content node (lines 41-46): the first [main], or else the
    first [article], or else the first [div] whose class matches the
    pattern, or else [soup.body]; [None] when there is none of them. *)
Definition select_main_content (soup : node) : option node :=
  match find is_main soup with
  | Some t => Some t
  | None =>
    match find is_article soup with
    | Some t => Some t
    | None =>
      match find is_content_div soup with
      | Some t => Some t
      | None => find is_body soup
      end
    end
  end.

(** The node whose text is read (lines 48-51): the selected node, or the
    whole document. *)
Definition main_content_node (soup : node) : node :=
  match select_main_content soup with
  | Some main_content => main_content
  | None => soup
  end.

(** The text before it is bounded (lines 36-54). *)
Definition clean_text (soup : node) : str :=
  let soup := decompose_all (name_in [py "script"; py "style"]) soup in
  let text :=
    match select_main_content soup with
    | Some main_content => get_text (py " ") main_content
    | None => get_text (py " ") soup
    end in
  strip (sub_ws text).

(** The bound (lines 57-58). *)
Definition limit_length (text : str) (max_length : Z) : str :=
  if len text >? max_length
  then slice_to text max_length ++ py "..."
  else text.

(** What is done with the parsed page (lines 36-60). *)
Definition extract_text (soup : node) (max_length : Z) : str :=
  limit_length (clean_text soup) max_length.

(** The guard of line 30 as a test on the response. *)
Definition is_html (r : ClientResponse) : bool :=
  contains (py "text/html")
    (lower (headers_get (headers r) (py "content-type") [])).

(** The body of the [try] (lines 25-60). *)
Definition fetch_page_body (url : str) (max_length : Z) : M str :=
  response <- session_get url [] ;;
  if negb (status response =? 200)
  then ret (py "HTTP " ++ str_of_Z (status response))
  else
    let content_type :=
      lower (headers_get (headers response) (py "content-type") []) in
    if negb (contains (py "text/html") content_type)
    then ret (py "Non-HTML content")
    else
      html <- lift (text response) ;;
      soup <- lift (BeautifulSoup html) ;;
      ret (extract_text soup max_length).

Definition fetch_page_content (url : str) (max_length : Z) : M str :=
  try_except (fetch_page_body url max_length)
    (fun e => ret (py "Content extraction failed: " ++ e)).

(** *** [web_search] *)

Definition search_url : str := py "https://html.duckduckgo.com/html/".

(** [a[i]] on a list: [IndexError] when out of range. *)
Definition index {A} (l : list A) (i : nat) : outcome A :=
  match nth_error l i with
  | Some x => Ok x
  | None => Raise (py "list index out of range")
  end.

(** Lines 123-125, the cleaning of a redirect link. *)
Definition clean_redirect (url : str) : outcome str :=
  if startswith url (py "/l/?uddg=")
  then
    match index (split url (py "uddg=")) 1 with
    | Ok after =>
      match index (split after (py "&")) 0 with
      | Ok target => Ok (unquote target)
      | Raise e => Raise e
      end
    | Raise e => Raise e
    end
  else Ok url.

Definition title_anchor (result_div : node) : option node :=
  find (fun n => name_is (py "a") n && class_matches (class_eq (py "result__a")) n)
       result_div.

Definition snippet_anchor (result_div : node) : option node :=
  find (fun n => name_is (py "a") n
                 && class_matches (class_eq (py "result__snippet")) n)
       result_div.

(** The snippet of a block (line 127). *)
Definition snippet_of (result_div : node) : str :=
  match snippet_anchor result_div with
  | Some snippet_tag => get_text [] snippet_tag
  | None => []
  end.

(** The item of lines 129-133. *)
Definition result_item_of (title url snippet : str) : gmap str str :=
  {[ py "title" := title; py "url" := url; py "snippet" := snippet ]}.

(** The loop of lines 108-143 over the sliced list: [i] is the index given
    by [enumerate], [results] holds the items appended so far. *)
Fixpoint search_loop (limit : Z) (include_content : bool) (i : Z)
    (result_divs : list node) (results : list (gmap str str))
  : M (list (gmap str str)) :=
  match result_divs with
  | [] => ret results
  | result_div :: rest =>
    if i >=? limit then ret results
    else
      match title_anchor result_div with
      | None => search_loop limit include_content (i + 1) rest results
      | Some title_tag =>
        let title := get_text [] title_tag in
        let url := attr_get title_tag (py "href") [] in
        url <- lift (clean_redirect url) ;;
        let snippet := snippet_of result_div in
        let result_item := result_item_of title url snippet in
        result_item <-
          (if include_content && nonempty url
           then
             content <-
               try_except (fetch_page_content url 2000)
                 (fun e => ret (py "Content fetch failed: " ++ e)) ;;
             ret (<[py "content" := content]> result_item)
           else ret result_item) ;;
        search_loop limit include_content (i + 1) rest (results ++ [result_item])
      end
  end.

Definition result_divs (soup : node) : list node :=
  find_all (fun n => name_is (py "div") n
                     && class_matches (class_eq (py "result")) n) soup.

Definition search_params (query : str) : list (str * str) :=
  [(py "q", query); (py "kl", py "us-en")].

(** The body of the [try] (lines 98-149). *)
Definition web_search_body (query : str) (limit : Z) (include_content : bool)
  : M (gmap str value) :=
  response <- session_get search_url (search_params query) ;;
  if negb (status response =? 200)
  then ret {[ py "error" :=
                VStr (py "Search failed with status "
                      ++ str_of_Z (status response)) ]}
  else
    html <- lift (text response) ;;
    soup <- lift (BeautifulSoup html) ;;
    results <-
      search_loop limit include_content 0
        (slice_to (result_divs soup) limit) [] ;;
    ret {[ py "query" := VStr query;
           py "results_count" := VInt (Z.of_nat (length results));
           py "results" := VList results ]}.

Definition web_search (query : str) (limit : Z) (include_content : bool)
  : M (gmap str value) :=
  try_except (web_search_body query limit include_content)
    (fun e => ret {[ py "error" := VStr (py "Search failed: " ++ e) ]}).

(** *** [url_info] *)

(** [headers.get('content-type', 'unknown')] on the dictionary made of the
    headers (line 181). *)
Definition head_content_type (response : ClientResponse) : str :=
  dict_get (dict_of_headers (headers response)) (py "content-type")
    (py "unknown").

(** The dictionary of lines 178-185. *)
Definition content_info_of (response : ClientResponse) : gmap str value :=
  let headers := dict_of_headers (headers response) in
  {[ py "url" := VStr (resp_url response);
     py "status_code" := VInt (status response);
     py "content_type" := VStr (head_content_type response);
     py "content_length" :=
       VStr (dict_get headers (py "content-length") (py "unknown"));
     py "server" := VStr (dict_get headers (py "server") (py "unknown"));
     py "last_modified" :=
       VStr (dict_get headers (py "last-modified") (py "unknown")) ]}.

(** The body of the [try] (lines 173-192). *)
Definition url_info_body (url : str) : M (gmap str value) :=
  response <- session_head url ;;
  let final_url := resp_url response in
  let content_info := content_info_of response in
  if contains (py "text/html") (lower (head_content_type response))
  then
    content <- fetch_page_content final_url 500 ;;
    ret (<[py "content_preview" := VStr content]> content_info)
  else ret content_info.

Definition url_info (url : str) : M (gmap str value) :=
  try_except (url_info_body url)
    (fun e => ret {[ py "error" := VStr (py "URL analysis failed: " ++ e) ]}).

(** ** Notions used to state the properties *)

(** The block has a title anchor. *)
Definition has_title_anchor (result_div : node) : bool :=
  match title_anchor result_div with
  | Some _ => true
  | None => false
  end.

(** [item] is what the loop appends for the block [result_div]: title, URL
    and snippet read off the block, and a [content] entry exactly when
    content is asked for and the URL is not empty. *)
Definition emitted (include_content : bool) (result_div : node)
    (item : gmap str str) : Prop :=
  exists title_tag url,
    title_anchor result_div = Some title_tag
    /\ clean_redirect (attr_get title_tag (py "href") []) = Ok url
    /\ let base := result_item_of (get_text [] title_tag) url
                    (snippet_of result_div) in
       if include_content && nonempty url
       then exists content, item = <[py "content" := content]> base
       else item = base.

(** The two shapes of a search response. *)
Definition success_response (query : str) (results : list (gmap str str))
  : gmap str value :=
  {[ py "query" := VStr query;
     py "results_count" := VInt (Z.of_nat (length results));
     py "results" := VList results ]}.

Definition error_shape (d : gmap str value) : Prop :=
  exists message, d = {[ py "error" := VStr message ]}.

Definition success_shape (d : gmap str value) : Prop :=
  exists query results, d = success_response query results.

(** A node with visible text: one of its text nodes is not blank. *)
Definition has_visible_text (n : node) : Prop :=
  exists s, In s (strings n) /\ strip s <> [].

(** [piece] is the part of [s] before the first occurrence of [sep], all
    of [s] when [sep] does not occur in it. *)
Definition before_first (sep s piece : str) : Prop :=
  exists tail,
    s = piece ++ tail
    /\ (tail = [] \/ startswith tail sep = true)
    /\ forall i, (i < length piece)%nat -> startswith (skipn i s) sep = false.

(** A link with a target: the href is not empty and, when it is a redirect
    link, something follows [/l/?uddg=] that begins neither with [&] nor
    with another [uddg=], so that its payload is not empty. *)
Definition usable_href (h : str) : Prop :=
  h <> []
  /\ (startswith h (py "/l/?uddg=") = true ->
      exists c rest,
        h = py "/l/?uddg=" ++ c :: rest
        /\ c <> 38%N /\ startswith (c :: rest) (py "uddg=") = false).

(** A well-formed result block in the amended C9: it has a title anchor
    that carries visible text and a link with a target. *)
Definition well_formed_block (result_div : node) : Prop :=
  exists title_tag,
    title_anchor result_div = Some title_tag
    /\ has_visible_text title_tag
    /\ usable_href (attr_get title_tag (py "href") []).

(** [t] is the first node below [root], in document order, that satisfies
    [p]; and no node below [root] satisfies [p]. *)
Definition first_match (p : node -> bool) (root t : node) : Prop :=
  exists before after,
    descendants root = before ++ t :: after
    /\ p t = true /\ Forall (fun x => p x = false) before.

Definition no_match (p : node -> bool) (root : node) : Prop :=
  Forall (fun x => p x = false) (descendants root).

(** The selection as C2 words it: the third criterion takes an element of
    any tag and compares the class without regard to letter case. *)
Definition content_re_ignorecase (t : str) : bool := content_re (lower t).

Definition is_content_element : node -> bool :=
  class_matches content_re_ignorecase.

Definition main_content_node_as_stated (soup : node) : node :=
  match find is_main soup with
  | Some t => t
  | None =>
    match find is_article soup with
    | Some t => t
    | None =>
      match find is_content_element soup with
      | Some t => t
      | None =>
        match find is_body soup with
        | Some t => t
        | None => soup
        end
      end
    end
  end.

(** *** The resource and the prompt *)




(** The prompt of lines 223-233, line by line; the topic stands between
    double quotes (code point 34). *)
Definition search_prompt (topic : str) : str :=
  join [10%N]
    [ [];
      py "Please search for information about " ++ [34%N] ++ topic ++ [34%N]
        ++ py " and provide a comprehensive analysis.";
      [];
      py "Use the web_search tool to gather current information, then:";
      py "1. Summarize the key findings";
      py "2. Identify important trends or developments";
      py "3. Provide relevant context and implications";
      py "4. Suggest additional areas for investigation";
      [];
      py "Focus on recent and authoritative sources to ensure accuracy.";
      [] ].

(** A text in which white space occurs only as single spaces: [prev] tells
    that the character before was a space. *)
Fixpoint collapsed_go (prev : bool) (s : str) : bool :=
  match s with
  | [] => true
  | c :: s' =>
    if isspace c
    then N.eqb c 32 && negb prev && collapsed_go true s'
    else collapsed_go false s'
  end.

Definition collapsed (s : str) : bool := collapsed_go false s.

(** The class attribute of [n] has the token [c]. *)
Definition has_class_token (c : str) (n : node) : Prop :=
  exists v, get_attr n (py "class") = Some v /\ In c (nonwhitespace_findall v).

(** A header of exactly this name is among the headers. *)
Definition has_header_named (name : str) (hs : list (str * str)) : bool :=
  existsb (fun kv => bool_decide (kv.1 = name)) hs.

(** Two header lists that differ at most in the letter case of names and
    values. *)
Definition same_headers_up_to_case (hs hs' : list (str * str)) : Prop :=
  Forall2 (fun a b => lower a.1 = lower b.1 /\ lower a.2 = lower b.2) hs hs'.

(** A HEAD request that is refused with the message [e]. *)
Definition refuse_head (e : str)
  : str -> unit -> outcome ClientResponse * unit :=
  fun _ w => (Raise e, w).

(** * Properties *)

(** ** Strings *)

Lemma py_redirect_prefix :
  py "/l/?uddg=" = [47; 108; 47; 63; 117; 100; 100; 103; 61]%N.
Proof. reflexivity. Qed.

Lemma py_uddg : py "uddg=" = [117; 100; 100; 103; 61]%N.
Proof. reflexivity. Qed.

Lemma py_amp : py "&" = [38]%N.
Proof. reflexivity. Qed.

Lemma py_dots : py "..." = [46; 46; 46]%N.
Proof. reflexivity. Qed.

Lemma startswith_app (p s : str) : startswith (p ++ s) p = true.
Proof.
  induction p as [|c p IH]; simpl; [reflexivity|].
  rewrite N.eqb_refl. exact IH.
Qed.

Lemma startswith_inv (p s : str) :
  startswith s p = true -> exists rest, s = p ++ rest.
Proof.
  revert s. induction p as [|c p IH]; intros s H.
  - exists s. reflexivity.
  - destruct s as [|d s]; simpl in H; [discriminate|].
    apply andb_prop in H as [Hc Hs]. apply N.eqb_eq in Hc. subst d.
    destruct (IH _ Hs) as [rest ->]. exists rest. reflexivity.
Qed.

(** A string that does not begin with [sep] still does not once a character
    foreign to [sep] is appended. *)
Lemma startswith_app_foreign (sep x : str) (c : N) (rest : str) :
  startswith x sep = false -> ~ In c sep ->
  startswith (x ++ c :: rest) sep = false.
Proof.
  revert x. induction sep as [|s0 sep IH]; intros x H Hc.
  - destruct x; discriminate.
  - destruct x as [|x0 x]; simpl in *.
    + destruct (N.eqb_spec s0 c) as [->|_]; [|reflexivity].
      exfalso. apply Hc. now left.
    + destruct (N.eqb s0 x0); simpl in *; [|reflexivity].
      apply IH; [exact H|]. intros Hin. apply Hc. now right.
Qed.

Lemma contains_cons_false (sub : str) (c : N) (s : str) :
  contains sub (c :: s) = false ->
  startswith (c :: s) sub = false /\ contains sub s = false.
Proof.
  cbn [contains]. intros H. apply orb_false_elim in H. exact H.
Qed.

(** *** [split] *)

Lemma split_go_cur (sep cur s : str) :
  split_go sep 0 cur s
  = (rev cur ++ hd [] (split_go sep 0 [] s)) :: tl (split_go sep 0 [] s).
Proof.
  revert cur. induction s as [|c s IH]; intros cur.
  - simpl. now rewrite app_nil_r.
  - cbn [split_go]. destruct (startswith (c :: s) sep).
    + simpl. now rewrite app_nil_r.
    + rewrite (IH (c :: cur)), (IH [c]). simpl.
      now rewrite <- app_assoc.
Qed.

Lemma split_cons_nomatch (sep : str) (c : N) (s : str) :
  startswith (c :: s) sep = false ->
  first_piece (c :: s) sep = c :: first_piece s sep.
Proof.
  intros H. unfold first_piece, split. cbn [split_go]. rewrite H.
  rewrite split_go_cur. reflexivity.
Qed.

Lemma index_split_0 (s sep : str) :
  index (split s sep) 0 = Ok (first_piece s sep).
Proof.
  unfold first_piece, split, index.
  destruct s as [|c s]; [reflexivity|].
  cbn [split_go]. destruct (startswith (c :: s) sep); [reflexivity|].
  rewrite split_go_cur. reflexivity.
Qed.

(** Splitting a redirect link at [uddg=]: the piece before the first
    occurrence is [/l/?], the pieces after it are those of the rest. *)
Lemma split_redirect (rest : str) :
  split (py "/l/?uddg=" ++ rest) (py "uddg=")
  = py "/l/?" :: split rest (py "uddg=").
Proof.
  rewrite py_redirect_prefix, py_uddg. unfold split. reflexivity.
Qed.

Lemma first_piece_amp (p rest : str) :
  ~ In 38%N p -> first_piece (p ++ 38%N :: rest) (py "&") = p.
Proof.
  rewrite py_amp. induction p as [|c p IH]; intros Hp.
  - unfold first_piece, split. cbn. reflexivity.
  - cbn [app]. rewrite split_cons_nomatch.
    + rewrite IH; [reflexivity|]. intros Hin. apply Hp. now right.
    + cbn [startswith]. destruct (N.eqb_spec 38 c) as [<-|_]; [|reflexivity].
      exfalso. apply Hp. now left.
Qed.

Lemma first_piece_foreign (sep p : str) (c : N) (rest : str) :
  contains sep p = false -> ~ In c sep ->
  exists more, first_piece (p ++ c :: rest) sep = p ++ c :: more.
Proof.
  intros Hp Hc. induction p as [|a p IH].
  - exists (first_piece rest sep). cbn [app].
    apply split_cons_nomatch.
    apply (startswith_app_foreign sep [] c rest); [|exact Hc].
    destruct sep; [discriminate|reflexivity].
  - apply contains_cons_false in Hp as [Ha Hp].
    destruct (IH Hp) as [more Hmore]. exists more.
    cbn [app]. rewrite split_cons_nomatch.
    + now rewrite Hmore.
    + apply (startswith_app_foreign sep (a :: p) c rest Ha Hc).
Qed.

(** *** [unquote] *)

Lemma unquote_to_bytes_nonempty (s : str) : s <> [] -> unquote_to_bytes s <> [].
Proof.
  destruct s as [|c s]; [congruence|]. intros _. cbn [unquote_to_bytes].
  repeat case_match; discriminate.
Qed.

Lemma utf8_decode_nonempty (bs : list N) : bs <> [] -> utf8_decode bs <> [].
Proof.
  destruct bs as [|b0 r0]; [congruence|]. intros _. cbn [utf8_decode].
  repeat case_match; discriminate.
Qed.

Lemma unquote_run_nonempty (run : str) : run <> [] -> unquote_run run <> [].
Proof.
  intros H. apply utf8_decode_nonempty, unquote_to_bytes_nonempty.
  intros E. apply H. apply (f_equal (@rev N)) in E.
  now rewrite rev_involutive in E.
Qed.

Lemma unquote_parts_nonempty (s run : str) :
  run <> [] \/ s <> [] -> unquote_parts run s <> [].
Proof.
  revert run. induction s as [|c s IH]; intros run H; cbn [unquote_parts].
  - apply unquote_run_nonempty. destruct H; congruence.
  - destruct (N.ltb c 128).
    + apply IH. left. discriminate.
    + intros E. apply app_eq_nil in E as [_ E]. discriminate.
Qed.

(** An ASCII character other than [%] at the head stays at the head. *)
Lemma unquote_parts_head (c : N) (s run x : str) :
  N.ltb c 128 = true -> N.eqb c 37 = false -> rev run = c :: x ->
  exists tail, unquote_parts run s = c :: tail.
Proof.
  intros Hc Hp. revert run x.
  induction s as [|d s IH]; intros run x Hrun; cbn [unquote_parts].
  - unfold unquote_run. rewrite Hrun. cbn [unquote_to_bytes utf8_decode].
    rewrite Hp. cbn [utf8_decode]. rewrite Hc. eauto.
  - destruct (N.ltb d 128).
    + apply (IH (d :: run) (x ++ [d])). cbn [rev]. now rewrite Hrun.
    + unfold unquote_run. rewrite Hrun. cbn [unquote_to_bytes utf8_decode].
      rewrite Hp. cbn [utf8_decode]. rewrite Hc. cbn [app]. eauto.
Qed.

Lemma unquote_head (c : N) (s : str) :
  N.ltb c 128 = true -> N.eqb c 37 = false ->
  exists tail, unquote (c :: s) = c :: tail.
Proof.
  intros Hc Hp. unfold unquote. destruct (negb _); [eauto|].
  cbn [unquote_parts]. rewrite Hc.
  now apply (unquote_parts_head c s [c] []).
Qed.

Lemma unquote_nonempty (s : str) : s <> [] -> unquote s <> [].
Proof.
  intros H. unfold unquote. destruct (negb _); [exact H|].
  apply unquote_parts_nonempty. now right.
Qed.

(** ** Redirect links *)

Lemma clean_redirect_prefixed (rest : str) :
  clean_redirect (py "/l/?uddg=" ++ rest)
  = Ok (unquote (first_piece (first_piece rest (py "uddg=")) (py "&"))).
Proof.
  unfold clean_redirect. rewrite startswith_app, split_redirect.
  change (index (py "/l/?" :: split rest (py "uddg=")) 1)
    with (index (split rest (py "uddg=")) 0).
  rewrite index_split_0, index_split_0. reflexivity.
Qed.

(** The two subscripts of line 125 are always in range. *)
Lemma clean_redirect_total (url : str) : exists target, clean_redirect url = Ok target.
Proof.
  destruct (startswith url (py "/l/?uddg=")) eqn:E.
  - destruct (startswith_inv _ _ E) as [rest ->].
    rewrite clean_redirect_prefixed. eauto.
  - unfold clean_redirect. rewrite E. eauto.
Qed.

Lemma not_in_uddg_amp : ~ In 38%N (py "uddg=").
Proof. rewrite py_uddg. cbn. intuition discriminate. Qed.

Lemma first_piece_before_first (sep s : str) :
  before_first sep s (first_piece s sep).
Proof.
  induction s as [|c s (tail & Hs & Htail & Hno)].
  - exists []. repeat split; [now left|]. cbn. intros i Hi. lia.
  - destruct (startswith (c :: s) sep) eqn:E.
    + assert (first_piece (c :: s) sep = []) as ->.
      { unfold first_piece, split. cbn [split_go]. now rewrite E. }
      exists (c :: s). repeat split; [now right|]. cbn. intros i Hi. lia.
    + rewrite (split_cons_nomatch _ _ _ E). exists tail.
      split; [cbn [app]; now rewrite <- Hs|]. split; [exact Htail|].
      intros [|i] Hi; [exact E|]. cbn [skipn]. apply Hno.
      cbn [length] in Hi. lia.
Qed.

Lemma first_piece_at_sep (sep s : str) :
  startswith s sep = true -> s <> [] -> first_piece s sep = [].
Proof.
  intros E Hs. destruct s as [|c s]; [contradiction|].
  unfold first_piece, split. cbn [split_go]. now rewrite E.
Qed.

(** C3 (amended): the decoding is right on the reference link.  The payload
    of a redirect link is what follows the first [uddg=] up to the next
    [uddg=] (if there is one), cut at its first [&] (if there is one), and
    it is cut before it is percent-decoded; so a payload without [&] and
    [uddg=] that is followed by [&] is decoded whole.  Decoding a second
    time changes nothing whenever the first result is not itself a redirect
    link, which is so for every redirect link whose payload begins with an
    ASCII character other than [%], [&] and [/]. *)
Theorem clean_redirect_decoding :
  clean_redirect (py "/l/?uddg=https%3A%2F%2Fexample.com%2Fx&rut=abc")
  = Ok (py "https://example.com/x")
  /\ (forall rest : str,
        exists upto payload : str,
          before_first (py "uddg=") rest upto
          /\ before_first (py "&") upto payload
          /\ clean_redirect (py "/l/?uddg=" ++ rest) = Ok (unquote payload))
  /\ (forall payload rest : str,
        ~ In 38%N payload -> contains (py "uddg=") payload = false ->
        clean_redirect (py "/l/?uddg=" ++ payload ++ py "&" ++ rest)
        = Ok (unquote payload))
  /\ (forall url once : str,
        clean_redirect url = Ok once ->
        startswith once (py "/l/?uddg=") = false ->
        clean_redirect once = Ok once)
  /\ (forall (c : N) (rest : str),
        N.ltb c 128 = true -> c <> 37%N -> c <> 38%N -> c <> 47%N ->
        exists once,
          clean_redirect (py "/l/?uddg=" ++ c :: rest) = Ok once
          /\ clean_redirect once = Ok once).
Proof.
  split; [reflexivity|]. split; [|split; [|split]].
  - intros rest.
    exists (first_piece rest (py "uddg=")),
           (first_piece (first_piece rest (py "uddg=")) (py "&")).
    split; [apply first_piece_before_first|].
    split; [apply first_piece_before_first|].
    apply clean_redirect_prefixed.
  - intros payload rest Hamp Huddg.
    rewrite clean_redirect_prefixed, py_amp. cbn [app].
    destruct (first_piece_foreign (py "uddg=") payload 38%N rest Huddg
                not_in_uddg_amp) as [more ->].
    now rewrite first_piece_amp.
  - intros url once _ Hnot. unfold clean_redirect. now rewrite Hnot.
  - intros c rest Hc Hpct Hamp Hslash.
    rewrite clean_redirect_prefixed.
    destruct (startswith (c :: rest) (py "uddg=")) eqn:Hu.
    + rewrite (first_piece_at_sep _ _ Hu) by discriminate.
      exists []. split; reflexivity.
    + rewrite (split_cons_nomatch _ _ _ Hu), split_cons_nomatch.
      * destruct (unquote_head c
                    (first_piece (first_piece rest (py "uddg=")) (py "&")) Hc)
          as [tail ->]; [now apply N.eqb_neq|].
        eexists. split; [reflexivity|].
        unfold clean_redirect. rewrite py_redirect_prefix. cbn [startswith].
        destruct (N.eqb_spec 47 c); [congruence|reflexivity].
      * rewrite py_amp. cbn [startswith].
        destruct (N.eqb_spec 38 c); [congruence|reflexivity].
Qed.

Lemma clean_redirect_decoding_witness :
  clean_redirect (py "/l/?uddg=" ++ py "a%26b" ++ py "&" ++ py "rut=1")
  = Ok (py "a&b")
  /\ clean_redirect (py "https://example.com/x") = Ok (py "https://example.com/x")
  /\ (exists once,
        clean_redirect (py "/l/?uddg=" ++ py "uddg=x") = Ok once
        /\ clean_redirect once = Ok once)
  /\ exists upto payload,
       before_first (py "uddg=") (py "a_uddg=b&c") upto
       /\ before_first (py "&") upto payload
       /\ clean_redirect (py "/l/?uddg=" ++ py "a_uddg=b&c")
          = Ok (unquote payload).
Proof.
  destruct clean_redirect_decoding as (_ & Hgen & Hcut & Hfix & Hlink).
  split; [|split; [|split]].
  - apply (Hcut (py "a%26b") (py "rut=1")).
    + cbn. intuition discriminate.
    + reflexivity.
  - apply (Hfix (py "/l/?uddg=https%3A%2F%2Fexample.com%2Fx&rut=abc"));
      reflexivity.
  - apply (Hlink 117%N (py "ddg=x"));
      [reflexivity|discriminate|discriminate|discriminate].
  - apply (Hgen (py "a_uddg=b&c")).
Defined.

(** C3 as stated fails: a link whose payload decodes to another redirect
    link is unwrapped once more by a second pass, and a second [uddg=]
    ahead of the first [&] ends the payload early. *)
Lemma clean_redirect_not_idempotent :
  clean_redirect (py "/l/?uddg=%2Fl%2F%3Fuddg%3Dhttps%3A%2F%2Fexample.com%2Fx")
  = Ok (py "/l/?uddg=https://example.com/x")
  /\ clean_redirect (py "/l/?uddg=https://example.com/x")
     = Ok (py "https://example.com/x")
  /\ py "/l/?uddg=https://example.com/x" <> py "https://example.com/x"
  /\ clean_redirect (py "/l/?uddg=a_uddg=b&c") = Ok (py "a_")
  /\ py "a_" <> py "a_uddg=b".
Proof. repeat split; try reflexivity; discriminate. Qed.

(** ** The length bound *)

Lemma len_app (a b : str) : len (a ++ b) = len a + len b.
Proof. unfold len. rewrite length_app. lia. Qed.

Lemma slice_to_nonneg {A} (s : list A) (n : Z) :
  0 <= n -> slice_to s n = firstn (Z.to_nat n) s.
Proof.
  intros H. unfold slice_to. destruct (Z.ltb_spec n 0); [lia|reflexivity].
Qed.

Lemma limit_length_short (text : str) (max_length : Z) :
  len text <= max_length -> limit_length text max_length = text.
Proof.
  intros H. unfold limit_length.
  destruct (Z.gtb_spec (len text) max_length); [lia|reflexivity].
Qed.

Lemma limit_length_long (text : str) (max_length : Z) :
  0 <= max_length -> max_length < len text ->
  limit_length text max_length
  = firstn (Z.to_nat max_length) text ++ py "..."
  /\ len (firstn (Z.to_nat max_length) text) = max_length.
Proof.
  intros Hm H. unfold limit_length.
  destruct (Z.gtb_spec (len text) max_length); [|lia].
  rewrite slice_to_nonneg by exact Hm. split; [reflexivity|].
  unfold len in *. rewrite length_firstn. lia.
Qed.

(** C4 (amended): for a bound that is not negative, a text no longer than
    the bound is returned as it is, and a longer one becomes its first
    [max_length] characters followed by the three dots, of length
    [max_length + 3]. *)
Theorem limit_length_bound (text : str) (max_length : Z) :
  0 <= max_length ->
  (len text <= max_length -> limit_length text max_length = text)
  /\ (max_length < len text ->
      limit_length text max_length
      = firstn (Z.to_nat max_length) text ++ py "..."
      /\ len (firstn (Z.to_nat max_length) text) = max_length
      /\ len (limit_length text max_length) = max_length + 3).
Proof.
  intros Hm. split; [apply limit_length_short|]. intros H.
  destruct (limit_length_long text max_length Hm H) as [Hl Hk].
  repeat split; [exact Hl|exact Hk|].
  rewrite Hl, len_app, Hk. reflexivity.
Qed.

Lemma limit_length_bound_witness :
  limit_length (py "short") 5 = py "short"
  /\ limit_length (py "a longer text") 5 = py "a lon..."
  /\ len (limit_length (py "a longer text") 5) = 8.
Proof.
  destruct (limit_length_bound (py "short") 5 ltac:(lia)) as [Hs _].
  destruct (limit_length_bound (py "a longer text") 5 ltac:(lia)) as [_ Hl].
  split; [apply Hs; vm_compute; discriminate|].
  destruct Hl as (Ht & _ & Hn); [reflexivity|].
  split; [exact Ht|exact Hn].
Defined.

(** C4 as stated fails for a negative bound: the slice then drops characters
    from the end instead of keeping the first [max_length]. *)
Lemma limit_length_negative_bound :
  limit_length (py "ab") (-1) = py "a..."
  /\ len (limit_length (py "ab") (-1)) <> -1 + 3.
Proof. split; [reflexivity|]. vm_compute. discriminate. Qed.

(** The output never exceeds the bound by more than the marker. *)
Lemma limit_length_le (text : str) (max_length : Z) :
  0 <= max_length -> len (limit_length text max_length) <= max_length + 3.
Proof.
  intros Hm. destruct (Z.le_gt_cases (len text) max_length) as [H|H].
  - rewrite (limit_length_short _ _ H). lia.
  - destruct (limit_length_long text max_length Hm H) as [-> Hk].
    rewrite len_app, Hk. change (len (py "...")) with 3. lia.
Qed.

(** ** The content extractor *)

Lemma bind_ok {A B} (m : M A) (k : A -> M B) (w w' : world) (a : A) :
  m w = (Ok a, w') -> bind m k w = k a w'.
Proof. intros H. unfold bind. now rewrite H. Qed.

Lemma bind_raise {A B} (m : M A) (k : A -> M B) (w w' : world) (e : str) :
  m w = (Raise e, w') -> bind m k w = (Raise e, w').
Proof. intros H. unfold bind. now rewrite H. Qed.

Lemma try_except_ok {A} (m : M A) (h : str -> M A) (w w' : world) (a : A) :
  m w = (Ok a, w') -> try_except m h w = (Ok a, w').
Proof. intros H. unfold try_except. now rewrite H. Qed.

Lemma try_except_raise {A} (m : M A) (h : str -> M A) (w w' : world) (e : str) :
  m w = (Raise e, w') -> try_except m h w = h e w'.
Proof. intros H. unfold try_except. now rewrite H. Qed.

Lemma fetch_page_body_get_raises url max_length w e w' :
  session_get url [] w = (Raise e, w') ->
  fetch_page_body url max_length w = (Raise e, w').
Proof. intros H. unfold fetch_page_body. now apply bind_raise. Qed.

Lemma fetch_page_body_not_200 url max_length w r w' :
  session_get url [] w = (Ok r, w') -> status r <> 200 ->
  fetch_page_body url max_length w
  = (Ok (py "HTTP " ++ str_of_Z (status r)), w').
Proof.
  intros H Hs. unfold fetch_page_body. rewrite (bind_ok _ _ _ _ _ H).
  destruct (Z.eqb_spec (status r) 200); [contradiction|reflexivity].
Qed.

Lemma fetch_page_body_not_html url max_length w r w' :
  session_get url [] w = (Ok r, w') -> status r = 200 -> is_html r = false ->
  fetch_page_body url max_length w = (Ok (py "Non-HTML content"), w').
Proof.
  intros H Hs Hh. unfold fetch_page_body. rewrite (bind_ok _ _ _ _ _ H).
  rewrite Hs. cbn [Z.eqb Pos.eqb negb]. unfold is_html in Hh. now rewrite Hh.
Qed.

Lemma fetch_page_body_html url max_length w r w' :
  session_get url [] w = (Ok r, w') -> status r = 200 -> is_html r = true ->
  fetch_page_body url max_length w
  = match text r with
    | Ok html =>
      match BeautifulSoup html with
      | Ok soup => (Ok (extract_text soup max_length), w')
      | Raise e => (Raise e, w')
      end
    | Raise e => (Raise e, w')
    end.
Proof.
  intros H Hs Hh. unfold fetch_page_body. rewrite (bind_ok _ _ _ _ _ H).
  rewrite Hs. cbn [Z.eqb Pos.eqb negb]. unfold is_html in Hh. rewrite Hh.
  cbn [negb]. unfold bind, lift, ret.
  destruct (text r) as [html|e]; [|reflexivity].
  destruct (BeautifulSoup html); reflexivity.
Qed.

Lemma fetch_page_content_cases url max_length w :
  fetch_page_content url max_length w
  = match fetch_page_body url max_length w with
    | (Ok s, w') => (Ok s, w')
    | (Raise e, w') => (Ok (py "Content extraction failed: " ++ e), w')
    end.
Proof. reflexivity. Qed.

Lemma fetch_page_content_total url max_length w :
  exists s w', fetch_page_content url max_length w = (Ok s, w').
Proof.
  rewrite fetch_page_content_cases.
  destruct (fetch_page_body url max_length w) as [[s|e] w']; eauto.
Qed.

(** C6: [fetch_page_content] always returns a string.  Whatever the body of
    its [try] raises, and in particular a failing request, a failing read of
    the response text and a failing parse, comes back as
    [Content extraction failed: <reason>]. *)
Theorem fetch_page_content_never_raises url max_length w :
  (exists s w', fetch_page_content url max_length w = (Ok s, w'))
  /\ (forall e w',
        fetch_page_body url max_length w = (Raise e, w') ->
        fetch_page_content url max_length w
        = (Ok (py "Content extraction failed: " ++ e), w'))
  /\ (forall e w',
        session_get url [] w = (Raise e, w') ->
        fetch_page_content url max_length w
        = (Ok (py "Content extraction failed: " ++ e), w'))
  /\ (forall r w' e,
        session_get url [] w = (Ok r, w') ->
        status r = 200 -> is_html r = true -> text r = Raise e ->
        fetch_page_content url max_length w
        = (Ok (py "Content extraction failed: " ++ e), w'))
  /\ (forall r w' html e,
        session_get url [] w = (Ok r, w') ->
        status r = 200 -> is_html r = true -> text r = Ok html ->
        BeautifulSoup html = Raise e ->
        fetch_page_content url max_length w
        = (Ok (py "Content extraction failed: " ++ e), w')).
Proof.
  split; [apply fetch_page_content_total|].
  assert (Hbody : forall e w',
             fetch_page_body url max_length w = (Raise e, w') ->
             fetch_page_content url max_length w
             = (Ok (py "Content extraction failed: " ++ e), w')).
  { intros e w' H. rewrite fetch_page_content_cases. now rewrite H. }
  split; [exact Hbody|]. split; [|split].
  - intros e w' H. apply Hbody. now apply fetch_page_body_get_raises.
  - intros r w' e H Hs Hh Ht. apply Hbody.
    rewrite (fetch_page_body_html _ _ _ _ _ H Hs Hh). now rewrite Ht.
  - intros r w' html e H Hs Hh Ht Hp. apply Hbody.
    rewrite (fetch_page_body_html _ _ _ _ _ H Hs Hh). now rewrite Ht, Hp.
Qed.

(** C5 (amended): a response whose status is not 200 gives [HTTP <status>];
    a response with status 200 whose content type, lower-cased, does not
    contain [text/html] gives [Non-HTML content].  Neither result depends on
    the response text or on the parser. *)
Theorem fetch_page_content_guards url max_length w r w' :
  session_get url [] w = (Ok r, w') ->
  (status r <> 200 ->
   fetch_page_content url max_length w
   = (Ok (py "HTTP " ++ str_of_Z (status r)), w'))
  /\ (status r = 404 ->
      fetch_page_content url max_length w = (Ok (py "HTTP 404"), w'))
  /\ (status r = 200 -> is_html r = false ->
      fetch_page_content url max_length w = (Ok (py "Non-HTML content"), w')).
Proof.
  intros H. repeat split.
  - intros Hs. rewrite fetch_page_content_cases.
    now rewrite (fetch_page_body_not_200 _ _ _ _ _ H Hs).
  - intros Hs. rewrite fetch_page_content_cases.
    rewrite (fetch_page_body_not_200 _ _ _ _ _ H) by lia.
    now rewrite Hs.
  - intros Hs Hh. rewrite fetch_page_content_cases.
    now rewrite (fetch_page_body_not_html _ _ _ _ _ H Hs Hh).
Qed.

(** On a page that is fetched and parsed, the result is the bounded text. *)
Lemma fetch_page_content_page url max_length w r w' html soup :
  session_get url [] w = (Ok r, w') ->
  status r = 200 -> is_html r = true ->
  text r = Ok html -> BeautifulSoup html = Ok soup ->
  fetch_page_content url max_length w
  = (Ok (limit_length (clean_text soup) max_length), w').
Proof.
  intros H Hs Hh Ht Hp. rewrite fetch_page_content_cases.
  rewrite (fetch_page_body_html _ _ _ _ _ H Hs Hh). now rewrite Ht, Hp.
Qed.


(** ** The search-result parser *)

Lemma search_loop_emits limit include_content :
  forall divs i results w,
  exists items w',
    search_loop limit include_content i divs results w
    = (Ok (results ++ items), w')
    /\ Forall2 (emitted include_content)
         (List.filter has_title_anchor (firstn (Z.to_nat (limit - i)) divs))
         items
    /\ (include_content = false -> w' = w).
Proof.
  induction divs as [|d rest IH]; intros i results w.
  - exists [], w. rewrite app_nil_r, firstn_nil. repeat split. constructor.
  - cbn [search_loop]. destruct (Z.geb_spec i limit) as [Hge|Hlt].
    + exists [], w. rewrite app_nil_r.
      replace (Z.to_nat (limit - i)) with 0%nat by lia.
      repeat split. constructor.
    + replace (Z.to_nat (limit - i)) with (S (Z.to_nat (limit - (i + 1))))
        by lia.
      cbn [firstn List.filter]. unfold has_title_anchor at 1.
      destruct (title_anchor d) as [title_tag|] eqn:Ha.
      * destruct (clean_redirect_total (attr_get title_tag (py "href") []))
          as [url Hurl].
        unfold bind at 1. unfold lift. rewrite Hurl.
        destruct (include_content && nonempty url) eqn:Hic.
        -- destruct (fetch_page_content_total url 2000 w) as (c & w2 & Hc).
           unfold bind at 1. unfold bind at 1.
           rewrite (try_except_ok _ _ _ _ _ Hc). unfold ret at 1.
           destruct (IH (i + 1)
                       (results ++
                        [<[py "content" := c]>
                           (result_item_of (get_text [] title_tag) url
                              (snippet_of d))]) w2)
             as (items & w' & Hloop & Hall & Hw).
           eexists (_ :: items), w'. rewrite Hloop, <- app_assoc.
           split; [reflexivity|]. split.
           ++ constructor; [|exact Hall].
              exists title_tag, url. rewrite Hic. eauto.
           ++ intros ->. discriminate.
        -- unfold bind at 1. unfold ret at 1.
           destruct (IH (i + 1)
                       (results ++
                        [result_item_of (get_text [] title_tag) url
                           (snippet_of d)]) w)
             as (items & w' & Hloop & Hall & Hw).
           eexists (_ :: items), w'. rewrite Hloop, <- app_assoc.
           split; [reflexivity|]. split; [|exact Hw].
           constructor; [|exact Hall].
           exists title_tag, url. rewrite Hic. eauto.
      * destruct (IH (i + 1) results w) as (items & w' & Hloop & Hall & Hw).
        exists items, w'. auto.
Qed.


Lemma error_shape_keys (d : gmap str value) :
  error_shape d ->
  is_Some (d !! py "error") /\ d !! py "results" = None
  /\ d !! py "results_count" = None /\ d !! py "query" = None.
Proof. intros [m ->]. repeat split. vm_compute. eauto. Qed.

Lemma success_shape_keys (d : gmap str value) :
  success_shape d ->
  d !! py "error" = None /\ is_Some (d !! py "results")
  /\ is_Some (d !! py "results_count") /\ is_Some (d !! py "query").
Proof. intros (q & rs & ->). repeat split; vm_compute; eauto. Qed.

Lemma shapes_exclusive (d : gmap str value) :
  ~ (error_shape d /\ success_shape d).
Proof.
  intros [He Hs]. apply error_shape_keys in He as ([v Hv] & _).
  apply success_shape_keys in Hs as (Hn & _). congruence.
Qed.


(** The page is fetched, read and parsed: what [web_search] does next is the
    loop over the sliced list of result blocks. *)
Lemma web_search_body_page query limit include_content w r w1 html soup :
  session_get search_url (search_params query) w = (Ok r, w1) ->
  status r = 200 -> text r = Ok html -> BeautifulSoup html = Ok soup ->
  web_search_body query limit include_content w
  = bind (search_loop limit include_content 0
            (slice_to (result_divs soup) limit) [])
         (fun results => ret (success_response query results)) w1.
Proof.
  intros Hget Hs Ht Hp. unfold web_search_body.
  rewrite (bind_ok _ _ _ _ _ Hget). rewrite Hs. cbn [Z.eqb Pos.eqb negb].
  unfold bind at 1. unfold lift. rewrite Ht.
  unfold bind at 1. rewrite Hp. reflexivity.
Qed.

Lemma web_search_page query limit include_content w r w1 html soup :
  session_get search_url (search_params query) w = (Ok r, w1) ->
  status r = 200 -> text r = Ok html -> BeautifulSoup html = Ok soup ->
  exists results w',
    web_search query limit include_content w
    = (Ok (success_response query results), w')
    /\ Forall2 (emitted include_content)
         (List.filter has_title_anchor
            (firstn (Z.to_nat limit) (slice_to (result_divs soup) limit)))
         results
    /\ (include_content = false -> w' = w1).
Proof.
  intros Hget Hs Ht Hp.
  destruct (search_loop_emits limit include_content
              (slice_to (result_divs soup) limit) 0 [] w1)
    as (results & w' & Hloop & Hall & Hw).
  exists results, w'. rewrite Z.sub_0_r in Hall. split; [|auto].
  unfold web_search.
  apply try_except_ok.
  rewrite (web_search_body_page _ _ _ _ _ _ _ _ Hget Hs Ht Hp).
  now rewrite (bind_ok _ _ _ _ _ Hloop).
Qed.

Lemma firstn_slice_to {A} (l : list A) (limit : Z) :
  0 <= limit ->
  firstn (Z.to_nat limit) (slice_to l limit) = firstn (Z.to_nat limit) l.
Proof.
  intros H. rewrite slice_to_nonneg by exact H.
  rewrite firstn_firstn. now rewrite Nat.min_id.
Qed.

Lemma length_filter_le {A} (p : A -> bool) (l : list A) :
  (length (List.filter p l) <= length l)%nat.
Proof.
  induction l as [|x l IH]; simpl; [lia|]. destruct (p x); simpl; lia.
Qed.

(** C1 (amended): on a fetched results page and for every limit of at least
    one, the items are those of the blocks that have a title anchor among
    the first [limit] result blocks, in order; a block without the anchor
    gives no item but still takes one of the [limit] places.  So
    [results_count] is the number of such blocks among the first [limit],
    and is at most [limit]. *)
Theorem web_search_results_count query limit include_content w r w1 html soup :
  1 <= limit ->
  session_get search_url (search_params query) w = (Ok r, w1) ->
  status r = 200 -> text r = Ok html -> BeautifulSoup html = Ok soup ->
  exists results w',
    web_search query limit include_content w
    = (Ok (success_response query results), w')
    /\ success_response query results !! py "results_count"
       = Some (VInt (Z.of_nat (length results)))
    /\ Forall2 (emitted include_content)
         (List.filter has_title_anchor
            (firstn (Z.to_nat limit) (result_divs soup)))
         results
    /\ length results
       = length (List.filter has_title_anchor
                   (firstn (Z.to_nat limit) (result_divs soup)))
    /\ Z.of_nat (length results) <= limit.
Proof.
  intros Hl Hget Hs Ht Hp.
  destruct (web_search_page query limit include_content _ _ _ _ _
              Hget Hs Ht Hp) as (results & w' & Hws & Hall & _).
  rewrite firstn_slice_to in Hall by lia.
  exists results, w'. split; [exact Hws|]. split; [reflexivity|].
  split; [exact Hall|].
  assert (Hlen := Forall2_length _ _ _ Hall).
  split; [now symmetry|].
  rewrite <- Hlen.
  pose proof (length_filter_le has_title_anchor
                (firstn (Z.to_nat limit) (result_divs soup))) as Hf.
  pose proof (firstn_le_length (Z.to_nat limit) (result_divs soup)) as Hn.
  lia.
Qed.

(** C10: with [limit = 0] a fetched results page gives the success shape
    with no result, never an error. *)
Theorem web_search_limit_zero query include_content w r w1 html soup :
  session_get search_url (search_params query) w = (Ok r, w1) ->
  status r = 200 -> text r = Ok html -> BeautifulSoup html = Ok soup ->
  web_search query 0 include_content w
  = (Ok {[ py "query" := VStr query;
           py "results_count" := VInt 0;
           py "results" := VList [] ]}, w1).
Proof.
  intros Hget Hs Ht Hp. unfold web_search. apply try_except_ok.
  rewrite (web_search_body_page _ _ _ _ _ _ _ _ Hget Hs Ht Hp).
  reflexivity.
Qed.

Lemma web_search_total query limit include_content w :
  exists d w',
    web_search query limit include_content w = (Ok d, w')
    /\ (error_shape d \/ success_shape d).
Proof.
  unfold web_search, try_except.
  destruct (session_get search_url (search_params query) w) as [[r|e] w1] eqn:Hget.
  - destruct (Z.eq_dec (status r) 200) as [Hs|Hs].
    + destruct (text r) as [html|e] eqn:Ht.
      * destruct (BeautifulSoup html) as [soup|e] eqn:Hp.
        -- destruct (web_search_page query limit include_content _ _ _ _ _
                       Hget Hs Ht Hp) as (results & w' & Hws & _).
           unfold web_search, try_except in Hws.
           exists (success_response query results), w'.
           split; [exact Hws|]. right. unfold success_shape. eauto.
        -- unfold web_search_body. rewrite (bind_ok _ _ _ _ _ Hget).
           rewrite Hs. cbn [Z.eqb Pos.eqb negb]. unfold bind, lift.
           rewrite Ht, Hp. do 2 eexists. split; [reflexivity|].
           left. unfold error_shape. eauto.
      * unfold web_search_body. rewrite (bind_ok _ _ _ _ _ Hget).
        rewrite Hs. cbn [Z.eqb Pos.eqb negb]. unfold bind, lift.
        rewrite Ht. do 2 eexists. split; [reflexivity|].
        left. unfold error_shape. eauto.
    + unfold web_search_body. rewrite (bind_ok _ _ _ _ _ Hget).
      destruct (Z.eqb_spec (status r) 200); [contradiction|].
      cbn [negb]. do 2 eexists. split; [reflexivity|].
      left. unfold error_shape. eauto.
  - unfold web_search_body. rewrite (bind_raise _ _ _ _ _ Hget).
    do 2 eexists. split; [reflexivity|]. left. unfold error_shape. eauto.
Qed.

(** C7: when the search request itself raises, [web_search] returns exactly
    [{error: Search failed: <message>}], which has none of the keys
    [results], [results_count] and [query]; and every response has one of
    the two shapes, never both. *)
Theorem web_search_failure_shape query limit include_content w :
  (forall e w',
     session_get search_url (search_params query) w = (Raise e, w') ->
     web_search query limit include_content w
     = (Ok {[ py "error" := VStr (py "Search failed: " ++ e) ]}, w')
     /\ ({[ py "error" := VStr (py "Search failed: " ++ e) ]}
          : gmap str value) !! py "results" = None
     /\ ({[ py "error" := VStr (py "Search failed: " ++ e) ]}
          : gmap str value) !! py "results_count" = None
     /\ ({[ py "error" := VStr (py "Search failed: " ++ e) ]}
          : gmap str value) !! py "query" = None)
  /\ (exists d w',
        web_search query limit include_content w = (Ok d, w')
        /\ (error_shape d \/ success_shape d)
        /\ ~ (error_shape d /\ success_shape d)).
Proof.
  split.
  - intros e w' Hget. split; [|repeat split].
    unfold web_search.
    rewrite (try_except_raise _ _ _ w' e); [reflexivity|].
    unfold web_search_body. now apply bind_raise.
  - destruct (web_search_total query limit include_content w)
      as (d & w' & Hws & Hshape).
    exists d, w'. split; [exact Hws|]. split; [exact Hshape|].
    apply shapes_exclusive.
Qed.


(** *** Well-formed blocks *)

Lemma join_nonempty (sep : str) (parts : list str) :
  Exists (fun x => x <> []) parts -> join sep parts <> [].
Proof.
  induction parts as [|x parts IH]; intros H; [inversion H|].
  cbn [join]. destruct parts as [|y parts].
  - inversion H as [? ? Hx|? ? Hx]; [exact Hx|inversion Hx].
  - intros E. apply app_eq_nil in E as [Ex E].
    apply app_eq_nil in E as [_ E].
    inversion H as [? ? Hx|? ? Hx]; [contradiction|].
    now apply IH.
Qed.

Lemma get_text_nonempty (sep : str) (n : node) :
  has_visible_text n -> get_text sep n <> [].
Proof.
  intros (s & Hin & Hs). unfold get_text. apply join_nonempty.
  apply List.Exists_exists. exists (strip s). split; [|exact Hs].
  apply filter_In. split.
  - now apply in_map.
  - destruct (strip s); [contradiction|reflexivity].
Qed.

Lemma usable_href_target (h : str) :
  usable_href h -> exists url, clean_redirect h = Ok url /\ url <> [].
Proof.
  intros [Hne Hred].
  destruct (startswith h (py "/l/?uddg=")) eqn:E.
  - destruct (Hred eq_refl) as (c & rest & -> & Hc & Hu).
    rewrite clean_redirect_prefixed. eexists. split; [reflexivity|].
    apply unquote_nonempty.
    rewrite (split_cons_nomatch _ _ _ Hu), split_cons_nomatch; [discriminate|].
    rewrite py_amp. cbn [startswith].
    destruct (N.eqb_spec 38 c); [congruence|reflexivity].
  - exists h. unfold clean_redirect. now rewrite E.
Qed.

Lemma emitted_well_formed (result_div : node) (item : gmap str str) :
  well_formed_block result_div -> emitted false result_div item ->
  item !! py "content" = None
  /\ (exists title, item !! py "title" = Some title /\ title <> [])
  /\ (exists url, item !! py "url" = Some url /\ url <> []).
Proof.
  intros (a & Ha & Htext & Hhref) (a' & url & Ha' & Hurl & Hitem).
  rewrite Ha in Ha'. injection Ha' as <-.
  cbn [andb] in Hitem. subst item.
  destruct (usable_href_target _ Hhref) as (url' & Hurl' & Hne).
  rewrite Hurl in Hurl'. injection Hurl' as <-.
  split; [reflexivity|]. split.
  - exists (get_text [] a). split; [reflexivity|].
    now apply get_text_nonempty.
  - exists url. split; [reflexivity|exact Hne].
Qed.

Lemma has_title_well_formed (result_div : node) :
  well_formed_block result_div -> has_title_anchor result_div = true.
Proof. intros (a & Ha & _). unfold has_title_anchor. now rewrite Ha. Qed.

(** C9 (amended): a results page whose result blocks are three blocks, each
    with a title anchor that carries visible text and a non-empty href
    which, when it is a redirect link, has a non-empty payload, searched
    with [limit = 2] and without content, gives exactly two items, those of
    the first two blocks in order; each has a title and a URL that are not
    empty and no [content] key, and [results_count] is 2. *)
Theorem web_search_three_blocks query w r w1 html soup b1 b2 b3 :
  session_get search_url (search_params query) w = (Ok r, w1) ->
  status r = 200 -> text r = Ok html -> BeautifulSoup html = Ok soup ->
  result_divs soup = [b1; b2; b3] ->
  well_formed_block b1 -> well_formed_block b2 -> well_formed_block b3 ->
  exists item1 item2,
    web_search query 2 false w
    = (Ok {[ py "query" := VStr query;
             py "results_count" := VInt 2;
             py "results" := VList [item1; item2] ]}, w1)
    /\ emitted false b1 item1 /\ emitted false b2 item2
    /\ Forall (fun item : gmap str str =>
                 item !! py "content" = None
                 /\ (exists title, item !! py "title" = Some title /\ title <> [])
                 /\ (exists url, item !! py "url" = Some url /\ url <> []))
         [item1; item2].
Proof.
  intros Hget Hs Ht Hp Hdivs H1 H2 H3.
  destruct (web_search_page query 2 false _ _ _ _ _ Hget Hs Ht Hp)
    as (results & w' & Hws & Hall & Hw).
  rewrite (Hw eq_refl) in Hws. clear Hw w'.
  rewrite firstn_slice_to, Hdivs in Hall by lia.
  change (Z.to_nat 2) with 2%nat in Hall. cbn [firstn List.filter] in Hall.
  rewrite (has_title_well_formed _ H1), (has_title_well_formed _ H2) in Hall.
  inversion Hall as [|? item1 ? rest1 He1 Hall1]; subst.
  inversion Hall1 as [|? item2 ? rest2 He2 Hall2]; subst.
  inversion Hall2; subst.
  exists item1, item2. split; [exact Hws|].
  split; [exact He1|]. split; [exact He2|].
  constructor; [exact (emitted_well_formed _ _ H1 He1)|].
  constructor; [exact (emitted_well_formed _ _ H2 He2)|constructor].
Qed.


(** ** The main-content node *)

Lemma filter_all_false {A} (p : A -> bool) (l : list A) :
  Forall (fun x => p x = false) l -> List.filter p l = [].
Proof.
  induction 1 as [|x l Hx _ IH]; [reflexivity|]. simpl. now rewrite Hx.
Qed.

Lemma find_first_match (p : node -> bool) (root t : node) :
  first_match p root t -> find p root = Some t.
Proof.
  intros (before & after & Hd & Ht & Hb). unfold find, find_all.
  rewrite Hd, List.filter_app, (filter_all_false _ _ Hb). simpl. now rewrite Ht.
Qed.

Lemma find_no_match (p : node -> bool) (root : node) :
  no_match p root -> find p root = None.
Proof.
  intros H. unfold find, find_all. now rewrite (filter_all_false _ _ H).
Qed.

Lemma filter_head_split {A} (p : A -> bool) (l : list A) (t : A) :
  head (List.filter p l) = Some t ->
  exists before after,
    l = before ++ t :: after
    /\ p t = true /\ Forall (fun x => p x = false) before.
Proof.
  induction l as [|x l IH]; [discriminate|]. simpl.
  destruct (p x) eqn:Hx.
  - intros [= ->]. exists [], l. repeat split; [exact Hx|constructor].
  - intros H. destruct (IH H) as (before & after & -> & Ht & Hb).
    exists (x :: before), after. repeat split; [exact Ht|].
    now constructor.
Qed.

(** What [find] returns is the first match in document order. *)
Lemma find_Some_first_match (p : node -> bool) (root t : node) :
  find p root = Some t -> first_match p root t.
Proof. apply filter_head_split. Qed.

Lemma find_None_no_match (p : node -> bool) (root : node) :
  find p root = None -> no_match p root.
Proof.
  unfold find, find_all, no_match.
  induction (descendants root) as [|x l IH]; [constructor|]. simpl.
  destruct (p x) eqn:Hx; [discriminate|]. intros H. constructor; auto.
Qed.

(** The text that is bounded is the text of the main-content node of the
    page without its scripts and styles. *)
Lemma clean_text_main_content (soup : node) :
  clean_text soup
  = strip (sub_ws
      (get_text (py " ")
         (main_content_node
            (decompose_all (name_in [py "script"; py "style"]) soup)))).
Proof.
  unfold clean_text, main_content_node.
  now destruct (select_main_content _).
Qed.

(** C2 (amended): the main-content node is the first match, in this order,
    of: the first [main] element; the first [article] element; the first
    [div] element whose class (a token of it, or its tokens joined by
    spaces) contains [content], [main] or [article] in exactly that letter
    case; the [body] element; and else the whole document. *)
Theorem main_content_first_match (soup : node) :
  (forall t, first_match is_main soup t -> main_content_node soup = t)
  /\ (no_match is_main soup ->
      forall t, first_match is_article soup t -> main_content_node soup = t)
  /\ (no_match is_main soup -> no_match is_article soup ->
      forall t, first_match is_content_div soup t ->
                main_content_node soup = t)
  /\ (no_match is_main soup -> no_match is_article soup ->
      no_match is_content_div soup ->
      forall t, first_match is_body soup t -> main_content_node soup = t)
  /\ (no_match is_main soup -> no_match is_article soup ->
      no_match is_content_div soup -> no_match is_body soup ->
      main_content_node soup = soup).
Proof.
  unfold main_content_node, select_main_content.
  repeat split.
  - intros t H. now rewrite (find_first_match _ _ _ H).
  - intros Hm t H.
    now rewrite (find_no_match _ _ Hm), (find_first_match _ _ _ H).
  - intros Hm Ha t H.
    now rewrite (find_no_match _ _ Hm), (find_no_match _ _ Ha),
      (find_first_match _ _ _ H).
  - intros Hm Ha Hd t H.
    now rewrite (find_no_match _ _ Hm), (find_no_match _ _ Ha),
      (find_no_match _ _ Hd), (find_first_match _ _ _ H).
  - intros Hm Ha Hd Hb.
    now rewrite (find_no_match _ _ Hm), (find_no_match _ _ Ha),
      (find_no_match _ _ Hd), (find_no_match _ _ Hb).
Qed.

(** ** The URL inspector *)

Lemma str_of_Z_three_digits (n : Z) : 0 <= n <= 999 -> len (str_of_Z n) <= 3.
Proof.
  intros H.
  assert (Hall : forallb (fun k => len (str_of_Z (Z.of_nat k)) <=? 3)
                   (List.seq 0 1000) = true) by (vm_compute; reflexivity).
  rewrite forallb_forall in Hall. specialize (Hall (Z.to_nat n)).
  rewrite Z2Nat.id in Hall by lia. apply Z.leb_le, Hall.
  apply in_seq. lia.
Qed.

(** When the body of [fetch_page_content] does not raise and the status has
    at most three digits, the result is at most [max_length + 3] long, or
    one of the two short literals. *)
Lemma fetch_page_body_length url max_length w g w' s w'' :
  16 <= max_length + 3 ->
  session_get url [] w = (Ok g, w') -> 0 <= status g <= 999 ->
  fetch_page_body url max_length w = (Ok s, w'') ->
  len s <= max_length + 3.
Proof.
  intros Hm Hget Hst Hbody.
  destruct (Z.eq_dec (status g) 200) as [H200|H200].
  - destruct (is_html g) eqn:Hh.
    + rewrite (fetch_page_body_html _ _ _ _ _ Hget H200 Hh) in Hbody.
      destruct (text g) as [html|e]; [|discriminate].
      destruct (BeautifulSoup html) as [soup|e]; [|discriminate].
      assert (s = extract_text soup max_length) as -> by congruence.
      apply limit_length_le. lia.
    + rewrite (fetch_page_body_not_html _ _ _ _ _ Hget H200 Hh) in Hbody.
      assert (s = py "Non-HTML content") as -> by congruence.
      change (len (py "Non-HTML content")) with 16. exact Hm.
  - rewrite (fetch_page_body_not_200 _ _ _ _ _ Hget H200) in Hbody.
    assert (s = py "HTTP " ++ str_of_Z (status g)) as -> by congruence.
    pose proof (str_of_Z_three_digits _ Hst) as Hd.
    rewrite len_app. change (len (py "HTTP ")) with 5. lia.
Qed.

(** When the HEAD probe answers and the content type that [url_info]
    reports contains [text/html], the result carries a [content_preview],
    which is what [fetch_page_content] returns for the final URL with
    [max_length = 500].  It is at most 503 characters long when the GET
    answers with a status of at most three digits and nothing raises while
    the page is read and parsed; when something does raise, it is
    [Content extraction failed: <reason>], 27 characters longer than the
    reason. *)
Theorem url_info_content_preview url w r w1 :
  session_head url w = (Ok r, w1) ->
  status r = 200 ->
  contains (py "text/html") (lower (head_content_type r)) = true ->
  exists preview w2,
    url_info url w
    = (Ok (<[py "content_preview" := VStr preview]> (content_info_of r)), w2)
    /\ (<[py "content_preview" := VStr preview]> (content_info_of r))
         !! py "content_preview" = Some (VStr preview)
    /\ fetch_page_content (resp_url r) 500 w1 = (Ok preview, w2)
    /\ (forall g w' s w'',
          session_get (resp_url r) [] w1 = (Ok g, w') ->
          0 <= status g <= 999 ->
          fetch_page_body (resp_url r) 500 w1 = (Ok s, w'') ->
          len preview <= 503)
    /\ (forall e w'',
          fetch_page_body (resp_url r) 500 w1 = (Raise e, w'') ->
          preview = py "Content extraction failed: " ++ e
          /\ len preview = 27 + len e).
Proof.
  intros Hhead _ Hct.
  destruct (fetch_page_content_total (resp_url r) 500 w1)
    as (preview & w2 & Hfetch).
  exists preview, w2. split; [|split; [|split; [exact Hfetch|split]]].
  - unfold url_info. apply try_except_ok. unfold url_info_body.
    rewrite (bind_ok _ _ _ _ _ Hhead). rewrite Hct.
    now rewrite (bind_ok _ _ _ _ _ Hfetch).
  - apply lookup_insert_eq.
  - intros g w' s w'' Hget Hst Hbody.
    assert (preview = s) as ->.
    { rewrite fetch_page_content_cases, Hbody in Hfetch. congruence. }
    apply (fetch_page_body_length _ 500 _ _ _ _ _ ltac:(lia) Hget Hst Hbody).
  - intros e w'' Hbody.
    assert (preview = py "Content extraction failed: " ++ e) as ->.
    { rewrite fetch_page_content_cases, Hbody in Hfetch. congruence. }
    split; [reflexivity|]. now rewrite len_app.
Qed.


(** * Further properties of the code *)

(** ** White space *)

Lemma sub_ws_go_collapsed (s : str) :
  forall b, collapsed_go b (sub_ws_go b s) = true.
Proof.
  induction s as [|c s IH]; intros b; [reflexivity|].
  cbn [sub_ws_go]. destruct (isspace c) eqn:Hc.
  - destruct b; [apply IH|].
    cbn [collapsed_go]. change (isspace 32) with true.
    now rewrite IH.
  - cbn [collapsed_go]. rewrite Hc. apply IH.
Qed.

Lemma collapsed_go_fixed (s : str) :
  forall b, collapsed_go b s = true -> sub_ws_go b s = s.
Proof.
  induction s as [|c s IH]; intros b H; [reflexivity|].
  cbn [collapsed_go sub_ws_go] in *. destruct (isspace c).
  - apply andb_prop in H as [H Hs]. apply andb_prop in H as [Hc Hb].
    apply N.eqb_eq in Hc. subst c. destruct b; [discriminate|].
    now rewrite (IH true Hs).
  - now rewrite (IH false H).
Qed.

Lemma collapsed_go_any (s : str) (b : bool) :
  collapsed_go b s = true -> collapsed_go false s = true.
Proof.
  destruct s as [|c s]; [reflexivity|]. cbn [collapsed_go].
  destruct (isspace c); [|auto]. intros H.
  apply andb_prop in H as [H Hs]. apply andb_prop in H as [Hc _].
  now rewrite Hc, Hs.
Qed.

Lemma collapsed_go_app_l (a x : str) :
  forall b, collapsed_go b (a ++ x) = true -> collapsed_go b a = true.
Proof.
  induction a as [|c a IH]; intros b H; [reflexivity|].
  cbn [app collapsed_go] in *. destruct (isspace c).
  - apply andb_prop in H as [H Hs]. rewrite H. cbn [andb]. now apply IH.
  - now apply IH.
Qed.

Lemma collapsed_go_spaces (s : str) :
  forall b, collapsed_go b s = true ->
  Forall (fun c => isspace c = true -> c = 32%N) s.
Proof.
  induction s as [|c s IH]; intros b H; constructor.
  - cbn [collapsed_go] in H. intros Hc. rewrite Hc in H.
    apply andb_prop in H as [H _]. apply andb_prop in H as [H _].
    now apply N.eqb_eq.
  - cbn [collapsed_go] in H. destruct (isspace c).
    + apply andb_prop in H as [_ H]. now apply (IH true).
    + now apply (IH false).
Qed.

Lemma collapsed_go_no_double (a rest : str) :
  forall b, collapsed_go b (a ++ 32%N :: 32%N :: rest) = false.
Proof.
  induction a as [|c a IH]; intros b.
  - cbn [app collapsed_go]. change (isspace 32) with true.
    cbn [N.eqb Pos.eqb andb negb]. now destruct b.
  - cbn [app collapsed_go]. destruct (isspace c); [|apply IH].
    rewrite IH. apply andb_false_r.
Qed.

Lemma lstrip_suffix (s : str) : exists p, s = p ++ lstrip s.
Proof.
  induction s as [|c s [p IH]]; [now exists []|].
  cbn [lstrip]. destruct (isspace c).
  - exists (c :: p). cbn [app]. now rewrite <- IH.
  - now exists [].
Qed.

Lemma rstrip_prefix (s : str) : exists q, s = rstrip s ++ q.
Proof.
  unfold rstrip. destruct (lstrip_suffix (rev s)) as [p Hp].
  exists (rev p). rewrite <- rev_app_distr, <- Hp. now rewrite rev_involutive.
Qed.

Lemma lstrip_head (s : str) :
  lstrip s = [] \/ exists c s', lstrip s = c :: s' /\ isspace c = false.
Proof.
  induction s as [|c s IH]; [now left|]. cbn [lstrip].
  destruct (isspace c) eqn:Hc; [exact IH|]. right. eauto.
Qed.

Lemma lstrip_cons (c : N) (s : str) :
  isspace c = false -> lstrip (c :: s) = c :: s.
Proof. intros H. cbn [lstrip]. now rewrite H. Qed.

Lemma lstrip_lstrip (s : str) : lstrip (lstrip s) = lstrip s.
Proof.
  destruct (lstrip_head s) as [->|(c & s' & -> & Hc)]; [reflexivity|].
  now apply lstrip_cons.
Qed.

Lemma rstrip_rstrip (s : str) : rstrip (rstrip s) = rstrip s.
Proof. unfold rstrip. now rewrite rev_involutive, lstrip_lstrip. Qed.

Lemma lstrip_rstrip_lstrip (s : str) :
  lstrip (rstrip (lstrip s)) = rstrip (lstrip s).
Proof.
  destruct (lstrip_head s) as [->|(c & s' & -> & Hc)]; [reflexivity|].
  destruct (rstrip_prefix (c :: s')) as [q Hq].
  destruct (rstrip (c :: s')) as [|d r]; [reflexivity|].
  injection Hq as <- _. now apply lstrip_cons.
Qed.

Lemma lstrip_strip (s : str) : lstrip (strip s) = strip s.
Proof. apply lstrip_rstrip_lstrip. Qed.

Lemma rstrip_strip (s : str) : rstrip (strip s) = strip s.
Proof. apply rstrip_rstrip. Qed.

Lemma strip_strip (s : str) : strip (strip s) = strip s.
Proof.
  unfold strip at 1. now rewrite lstrip_strip, rstrip_strip.
Qed.

Lemma collapsed_lstrip (s : str) :
  forall b, collapsed_go b s = true -> collapsed (lstrip s) = true.
Proof.
  induction s as [|c s IH]; intros b H; [reflexivity|].
  cbn [lstrip]. cbn [collapsed_go] in H. destruct (isspace c) eqn:Hc.
  - apply andb_prop in H as [_ H]. now apply (IH true).
  - unfold collapsed. cbn [collapsed_go]. now rewrite Hc.
Qed.

Lemma collapsed_rstrip (s : str) :
  collapsed s = true -> collapsed (rstrip s) = true.
Proof.
  intros H. destruct (rstrip_prefix s) as [q Hq].
  rewrite Hq in H. now apply collapsed_go_app_l in H.
Qed.

Lemma collapsed_strip_sub_ws (s : str) : collapsed (strip (sub_ws s)) = true.
Proof.
  unfold strip. apply collapsed_rstrip.
  apply (collapsed_lstrip _ false). apply sub_ws_go_collapsed.
Qed.

(** X1: the text that [fetch_page_content] bounds is in normal form: every
    white-space character in it is an ASCII space, no two spaces follow each
    other, there is none at either end, and cleaning it again changes
    nothing. *)
Theorem clean_text_normal_form (soup : node) :
  Forall (fun c => isspace c = true -> c = 32%N) (clean_text soup)
  /\ (forall a b, clean_text soup <> a ++ 32%N :: 32%N :: b)
  /\ lstrip (clean_text soup) = clean_text soup
  /\ rstrip (clean_text soup) = clean_text soup
  /\ strip (sub_ws (clean_text soup)) = clean_text soup.
Proof.
  rewrite clean_text_main_content.
  set (t := get_text _ _).
  pose proof (collapsed_strip_sub_ws t) as Hc. unfold collapsed in Hc.
  split; [now apply (collapsed_go_spaces _ false)|].
  split.
  { intros a b E. rewrite E in Hc. now rewrite collapsed_go_no_double in Hc. }
  split; [apply lstrip_strip|]. split; [apply rstrip_strip|].
  unfold sub_ws at 1. rewrite (collapsed_go_fixed _ _ Hc). apply strip_strip.
Qed.

(** ** The tree *)

(** Induction on a tree, with the property known for all the children. *)
Lemma node_children_ind (P : node -> Prop) :
  (forall nm a cs, Forall P cs -> P (Tag nm a cs)) ->
  (forall s, P (NavigableString s)) ->
  (forall s, P (Comment s)) ->
  forall n, P n.
Proof.
  intros Htag Hstr Hcom.
  fix IH 1. intros [nm a cs|s|s]; [|apply Hstr|apply Hcom].
  apply Htag. induction cs as [|c cs IHcs]; constructor; [apply IH|exact IHcs].
Qed.

Lemma descendants_Tag nm a cs :
  descendants (Tag nm a cs) = flat_map (fun c => c :: descendants c) cs.
Proof.
  cbn [descendants]. induction cs as [|c cs IH]; [reflexivity|].
  cbn [flat_map app]. now rewrite IH.
Qed.

Lemma decompose_all_Tag p nm a cs :
  decompose_all p (Tag nm a cs)
  = Tag nm a (map (decompose_all p) (List.filter (fun c => negb (p c)) cs)).
Proof.
  cbn [decompose_all]. f_equal. induction cs as [|c cs IH]; [reflexivity|].
  cbn [List.filter]. destruct (p c); cbn [negb map]; now rewrite IH.
Qed.

Lemma name_in_decompose_all nms p n :
  name_in nms (decompose_all p n) = name_in nms n.
Proof. destruct n; reflexivity. Qed.

Lemma decompose_all_none_left (nms : list str) (n : node) :
  Forall (fun d => name_in nms d = false)
         (descendants (decompose_all (name_in nms) n)).
Proof.
  induction n as [nm a cs IH|s|s] using node_children_ind;
    [|constructor|constructor].
  rewrite decompose_all_Tag, descendants_Tag.
  induction cs as [|c cs IHcs]; [constructor|].
  inversion IH as [|? ? Hc Hcs]; subst.
  cbn [List.filter]. destruct (name_in nms c) eqn:Hn; cbn [negb map flat_map].
  - now apply IHcs.
  - constructor; [now rewrite name_in_decompose_all|].
    apply Forall_app. split; [exact Hc|now apply IHcs].
Qed.

Lemma descendants_trans (r t d : node) :
  In t (descendants r) -> In d (descendants t) -> In d (descendants r).
Proof.
  intros Ht Hd. revert Ht.
  induction r as [nm a cs IH|s|s] using node_children_ind;
    [|intros []|intros []].
  rewrite descendants_Tag. intros Ht.
  apply in_flat_map in Ht as (c & Hc & Hin).
  apply in_flat_map. exists c. split; [exact Hc|].
  destruct Hin as [->|Hin]; [now right|].
  right. rewrite List.Forall_forall in IH. now apply (IH c Hc).
Qed.

Lemma find_in_descendants (p : node -> bool) (root t : node) :
  find p root = Some t -> In t (descendants root) /\ p t = true.
Proof.
  intros H. apply find_Some_first_match in H
    as (before & after & Hd & Ht & _).
  split; [|exact Ht]. rewrite Hd. apply in_or_app. right. now left.
Qed.

Lemma main_content_node_in_soup (soup : node) :
  main_content_node soup = soup \/ In (main_content_node soup) (descendants soup).
Proof.
  unfold main_content_node, select_main_content.
  destruct (find is_main soup) eqn:E1;
    [right; now apply (find_in_descendants _ _ _ E1)|].
  destruct (find is_article soup) eqn:E2;
    [right; now apply (find_in_descendants _ _ _ E2)|].
  destruct (find is_content_div soup) eqn:E3;
    [right; now apply (find_in_descendants _ _ _ E3)|].
  destruct (find is_body soup) eqn:E4;
    [right; now apply (find_in_descendants _ _ _ E4)|].
  now left.
Qed.

(** X2: once the scripts and styles are removed (lines 37-38), no [script]
    and no [style] element is left anywhere in the page, and so none below
    the node whose text is read. *)
Theorem no_script_below_main_content (soup : node) :
  let cleaned := decompose_all (name_in [py "script"; py "style"]) soup in
  Forall (fun d => name_is (py "script") d = false
                   /\ name_is (py "style") d = false)
         (descendants cleaned)
  /\ Forall (fun d => name_is (py "script") d = false
                      /\ name_is (py "style") d = false)
            (descendants (main_content_node cleaned)).
Proof.
  intros cleaned.
  assert (Hall : Forall (fun d => name_is (py "script") d = false
                                  /\ name_is (py "style") d = false)
                        (descendants cleaned)).
  { pose proof (decompose_all_none_left [py "script"; py "style"] soup) as H.
    apply List.Forall_forall. intros d Hd.
    rewrite List.Forall_forall in H. specialize (H d Hd).
    unfold name_in in H. cbn [existsb] in H.
    apply orb_false_elim in H as [Hs H].
    apply orb_false_elim in H as [Hst _]. now split. }
  split; [exact Hall|].
  destruct (main_content_node_in_soup cleaned) as [->|Hin]; [exact Hall|].
  apply List.Forall_forall. intros d Hd.
  rewrite List.Forall_forall in Hall. apply Hall.
  now apply (descendants_trans cleaned (main_content_node cleaned)).
Qed.

(** ** Classes *)

Lemma join_space_has_space (x y : str) (l : list str) :
  In 32%N (join (py " ") (x :: y :: l)).
Proof.
  cbn [join]. apply in_or_app. right. now left.
Qed.

Lemma existsb_class_eq (c : str) (tokens : list str) :
  existsb (class_eq c) tokens = true <-> In c tokens.
Proof.
  rewrite existsb_exists. unfold class_eq. split.
  - intros (t & Ht & E). apply bool_decide_eq_true in E. now subst.
  - intros H. exists c. split; [exact H|]. now apply bool_decide_eq_true.
Qed.

Lemma class_matches_token (c : str) (n : node) :
  c <> [] -> ~ In 32%N c ->
  class_matches (class_eq c) n = true <-> has_class_token c n.
Proof.
  intros Hne Hsp. unfold class_matches, has_class_token.
  destruct (get_attr n (py "class")) as [v|]; [|split; [discriminate|]].
  - split.
    + intros H. exists v. split; [reflexivity|].
      apply orb_prop in H as [H|H]; [now apply existsb_class_eq|].
      unfold class_eq in H. apply bool_decide_eq_true in H.
      destruct (nonwhitespace_findall v) as [|x [|y l]].
      * now symmetry in H.
      * cbn [join] in H. subst. now left.
      * exfalso. apply Hsp. rewrite <- H. apply join_space_has_space.
    + intros (v' & [= <-] & Hin).
      apply orb_true_intro. left. now apply existsb_class_eq.
  - now intros (v & Hv & _).
Qed.

(** X3: the result blocks of a page are exactly its [div] elements that have
    [result] among the tokens of their class; a class that only contains the
    word, such as [results] or [result__body], does not count. *)
Theorem result_divs_exact_token (soup d : node) :
  In d (result_divs soup)
  <-> In d (descendants soup)
      /\ name_is (py "div") d = true
      /\ has_class_token (py "result") d.
Proof.
  unfold result_divs, find_all. rewrite filter_In.
  rewrite andb_true_iff.
  rewrite (class_matches_token (py "result") d);
    [tauto|discriminate|].
  cbn. intuition discriminate.
Qed.

(** ** Text *)

Lemma filter_nonempty_nil (l : list str) :
  Forall (fun s => strip s = []) l ->
  List.filter nonempty (map strip l) = [].
Proof.
  induction 1 as [|s l Hs _ IH]; [reflexivity|].
  cbn [map List.filter]. now rewrite Hs.
Qed.

(** X4: the text of a node is empty exactly when none of its text nodes has
    a character that is not white space; so are the title and the snippet
    of an item. *)
Theorem get_text_empty_iff (sep : str) (n : node) :
  get_text sep n = [] <-> ~ has_visible_text n.
Proof.
  split.
  - intros E Hv. now apply (get_text_nonempty sep n Hv).
  - intros Hv. unfold get_text. rewrite filter_nonempty_nil; [reflexivity|].
    apply List.Forall_forall. intros s Hs.
    destruct (strip s) eqn:E; [reflexivity|].
    exfalso. apply Hv. exists s. split; [exact Hs|]. now rewrite E.
Qed.

(** ** The bound again *)

(** X5: for a bound that is not negative, the bounded text keeps the first
    [max_length] characters of the text, and bounding it again with the
    same bound changes nothing. *)
Theorem limit_length_stable (text : str) (max_length : Z) :
  0 <= max_length ->
  firstn (Z.to_nat max_length) (limit_length text max_length)
  = firstn (Z.to_nat max_length) text
  /\ limit_length (limit_length text max_length) max_length
     = limit_length text max_length.
Proof.
  intros Hm. destruct (Z.le_gt_cases (len text) max_length) as [H|H].
  - rewrite (limit_length_short _ _ H). split; [reflexivity|].
    now apply limit_length_short.
  - destruct (limit_length_long text max_length Hm H) as [Hl Hk].
    assert (Hn : length (firstn (Z.to_nat max_length) text)
                 = Z.to_nat max_length) by (unfold len in Hk; lia).
    assert (Hf : firstn (Z.to_nat max_length) (limit_length text max_length)
                 = firstn (Z.to_nat max_length) text).
    { rewrite Hl, firstn_app, Hn, Nat.sub_diag. cbn [firstn].
      rewrite app_nil_r, firstn_firstn. now rewrite Nat.min_id. }
    split; [exact Hf|].
    destruct (limit_length_long (limit_length text max_length) max_length Hm)
      as [Hl2 _].
    { rewrite Hl, len_app, Hk. change (len (py "...")) with 3. lia. }
    now rewrite Hl2, Hf, <- Hl.
Qed.

(** ** Redirect links again *)

Lemma first_piece_prefix (sep s : str) : exists rest, s = first_piece s sep ++ rest.
Proof.
  induction s as [|c s [rest IH]]; [now exists []|].
  destruct (startswith (c :: s) sep) eqn:E.
  - exists (c :: s). unfold first_piece, split. cbn [split_go].
    now rewrite E.
  - rewrite (split_cons_nomatch _ _ _ E). exists rest. cbn [app].
    now rewrite <- IH.
Qed.

Lemma first_piece_length (sep s : str) :
  (length (first_piece s sep) <= length s)%nat.
Proof.
  destruct (first_piece_prefix sep s) as [rest H].
  rewrite H at 2. rewrite length_app. lia.
Qed.

Lemma unquote_to_bytes_length (s : str) :
  forall n, (length s <= n)%nat ->
  (length (unquote_to_bytes s) <= length s)%nat.
Proof.
  intros n. revert s. induction n as [|n IH]; intros s Hn.
  - destruct s; [simpl; lia|simpl in Hn; lia].
  - destruct s as [|c s]; [simpl; lia|]. cbn [unquote_to_bytes].
    destruct (N.eqb c 37).
    + destruct s as [|h1 [|h2 s'']].
      * simpl. lia.
      * pose proof (IH [h1] ltac:(cbn [length] in *; lia)) as H.
        cbn [length] in *. lia.
      * destruct (hexval h1), (hexval h2);
          cbn [length] in *;
          try (pose proof (IH s'' ltac:(lia)); lia);
          pose proof (IH (h1 :: h2 :: s'') ltac:(cbn [length]; lia)) as H;
          cbn [length] in H; lia.
    + cbn [length] in *. pose proof (IH s ltac:(lia)). lia.
Qed.

Lemma utf8_decode_length (bs : list N) :
  forall n, (length bs <= n)%nat ->
  (length (utf8_decode bs) <= length bs)%nat.
Proof.
  intros n. revert bs. induction n as [|n IH]; intros bs Hn.
  - destruct bs; [simpl; lia|simpl in Hn; lia].
  - destruct bs as [|b0 r0]; [simpl; lia|]. cbn [utf8_decode].
    repeat case_match; subst; cbn [length] in *;
      repeat match goal with
             | |- context [utf8_decode ?r] =>
               lazymatch goal with
               | _ : (length (utf8_decode r) <= length r)%nat |- _ => fail
               | _ => pose proof (IH r ltac:(cbn [length]; lia))
               end
             end;
      cbn [length] in *; lia.
Qed.

Lemma unquote_run_length (run : str) :
  (length (unquote_run run) <= length run)%nat.
Proof.
  unfold unquote_run.
  pose proof (utf8_decode_length (unquote_to_bytes (rev run)) _ (le_n _)).
  pose proof (unquote_to_bytes_length (rev run) _ (le_n _)) as H2.
  rewrite length_rev in H2. lia.
Qed.

Lemma unquote_parts_length (s : str) :
  forall run,
  (length (unquote_parts run s) <= length run + length s)%nat.
Proof.
  induction s as [|c s IH]; intros run; cbn [unquote_parts].
  - pose proof (unquote_run_length run). simpl. lia.
  - destruct (N.ltb c 128).
    + pose proof (IH (c :: run)). cbn [length] in *. lia.
    + rewrite length_app. cbn [length].
      pose proof (unquote_run_length run). pose proof (IH []).
      cbn [length] in *. lia.
Qed.

Lemma unquote_length (s : str) : (length (unquote s) <= length s)%nat.
Proof.
  unfold unquote. destruct (negb _); [lia|].
  pose proof (unquote_parts_length s []). cbn [length] in *. lia.
Qed.

(** X6: the cleaning of a link never raises (the two subscripts of line
    125 are always in range); a link that is not a redirect link comes back
    unchanged, and the cleaned link is never longer than the link. *)
Theorem clean_redirect_safe (url : str) :
  exists target,
    clean_redirect url = Ok target
    /\ (startswith url (py "/l/?uddg=") = false -> target = url)
    /\ (length target <= length url)%nat.
Proof.
  destruct (startswith url (py "/l/?uddg=")) eqn:E.
  - destruct (startswith_inv _ _ E) as [rest ->].
    rewrite clean_redirect_prefixed. eexists. split; [reflexivity|].
    split; [discriminate|].
    pose proof (unquote_length
                  (first_piece (first_piece rest (py "uddg=")) (py "&"))).
    pose proof (first_piece_length (py "&") (first_piece rest (py "uddg="))).
    pose proof (first_piece_length (py "uddg=") rest).
    rewrite length_app. lia.
  - exists url. unfold clean_redirect. rewrite E. auto.
Qed.

(** ** The search again *)

Lemma search_loop_break limit include_content i divs results w :
  limit <= i ->
  search_loop limit include_content i divs results w = (Ok results, w).
Proof.
  intros H. destruct divs as [|d rest]; [reflexivity|].
  cbn [search_loop]. destruct (Z.geb_spec i limit); [reflexivity|lia].
Qed.

(** X7: a negative limit gives no result at all: on a fetched results page
    the answer is the success shape with [results_count = 0], and no page
    is requested. *)
Theorem web_search_negative_limit query limit include_content w r w1 html soup :
  limit < 0 ->
  session_get search_url (search_params query) w = (Ok r, w1) ->
  status r = 200 -> text r = Ok html -> BeautifulSoup html = Ok soup ->
  web_search query limit include_content w
  = (Ok {[ py "query" := VStr query;
           py "results_count" := VInt 0;
           py "results" := VList [] ]}, w1).
Proof.
  intros Hl Hget Hs Ht Hp. unfold web_search. apply try_except_ok.
  rewrite (web_search_body_page _ _ _ _ _ _ _ _ Hget Hs Ht Hp).
  unfold bind. rewrite search_loop_break by lia. reflexivity.
Qed.

(** X8: what [web_search] answers when the results page cannot be used: a
    status other than 200 gives [Search failed with status <status>]
    without the body being read; a failing read of the body and a failing
    parse give [Search failed: <reason>]. *)
Theorem web_search_page_failures query limit include_content w r w1 :
  session_get search_url (search_params query) w = (Ok r, w1) ->
  (status r <> 200 ->
   web_search query limit include_content w
   = (Ok {[ py "error" :=
              VStr (py "Search failed with status " ++ str_of_Z (status r)) ]},
      w1))
  /\ (forall e,
        status r = 200 -> text r = Raise e ->
        web_search query limit include_content w
        = (Ok {[ py "error" := VStr (py "Search failed: " ++ e) ]}, w1))
  /\ (forall html e,
        status r = 200 -> text r = Ok html -> BeautifulSoup html = Raise e ->
        web_search query limit include_content w
        = (Ok {[ py "error" := VStr (py "Search failed: " ++ e) ]}, w1)).
Proof.
  intros Hget. unfold web_search, web_search_body. repeat split.
  - intros Hs. apply try_except_ok. rewrite (bind_ok _ _ _ _ _ Hget).
    destruct (Z.eqb_spec (status r) 200); [contradiction|reflexivity].
  - intros e Hs Ht. rewrite (try_except_raise _ _ _ w1 e); [reflexivity|].
    rewrite (bind_ok _ _ _ _ _ Hget). rewrite Hs. cbn [Z.eqb Pos.eqb negb].
    unfold bind, lift. now rewrite Ht.
  - intros html e Hs Ht Hp.
    rewrite (try_except_raise _ _ _ w1 e); [reflexivity|].
    rewrite (bind_ok _ _ _ _ _ Hget). rewrite Hs. cbn [Z.eqb Pos.eqb negb].
    unfold bind, lift. now rewrite Ht, Hp.
Qed.

Lemma emitted_keys include_content result_div item :
  emitted include_content result_div item ->
  exists title url snippet,
    item !! py "title" = Some title
    /\ item !! py "url" = Some url
    /\ item !! py "snippet" = Some snippet
    /\ (is_Some (item !! py "content") <-> include_content = true /\ url <> []).
Proof.
  intros (a & url & _ & _ & Hitem).
  exists (get_text [] a), url, (snippet_of result_div).
  cbv zeta in Hitem.
  destruct (include_content && nonempty url) eqn:E.
  - destruct Hitem as [content ->].
    apply andb_prop in E as [-> Hu].
    split; [reflexivity|]. split; [reflexivity|]. split; [reflexivity|].
    split.
    + intros _. split; [reflexivity|]. now destruct url.
    + intros _. exists content. reflexivity.
  - subst item.
    split; [reflexivity|]. split; [reflexivity|]. split; [reflexivity|].
    split.
    + intros [v Hv]. discriminate.
    + intros [-> Hu]. destruct url; [contradiction|discriminate].
Qed.

(** X9: without [include_content] the only request made is the one for the
    results page, and no item has a [content] key. *)
Theorem web_search_without_content query limit w r w1 html soup :
  session_get search_url (search_params query) w = (Ok r, w1) ->
  status r = 200 -> text r = Ok html -> BeautifulSoup html = Ok soup ->
  exists results,
    web_search query limit false w = (Ok (success_response query results), w1)
    /\ Forall (fun item : gmap str str => item !! py "content" = None) results.
Proof.
  intros Hget Hs Ht Hp.
  destruct (web_search_page query limit false _ _ _ _ _ Hget Hs Ht Hp)
    as (results & w' & Hws & Hall & Hw).
  rewrite (Hw eq_refl) in Hws. exists results. split; [exact Hws|].
  clear Hws. induction Hall as [|d item ds items He _ IH]; constructor.
  - destruct He as (a & url & _ & _ & Hitem). cbn [andb] in Hitem.
    now subst item.
  - exact IH.
Qed.

(** X10: every item has the keys [title], [url] and [snippet], and it has
    the key [content] exactly when content is asked for and its URL is not
    empty. *)
Theorem web_search_item_keys query limit include_content w r w1 html soup :
  session_get search_url (search_params query) w = (Ok r, w1) ->
  status r = 200 -> text r = Ok html -> BeautifulSoup html = Ok soup ->
  exists results w',
    web_search query limit include_content w
    = (Ok (success_response query results), w')
    /\ Forall (fun item : gmap str str =>
                 exists title url snippet,
                   item !! py "title" = Some title
                   /\ item !! py "url" = Some url
                   /\ item !! py "snippet" = Some snippet
                   /\ (is_Some (item !! py "content")
                       <-> include_content = true /\ url <> []))
         results.
Proof.
  intros Hget Hs Ht Hp.
  destruct (web_search_page query limit include_content _ _ _ _ _
              Hget Hs Ht Hp) as (results & w' & Hws & Hall & _).
  exists results, w'. split; [exact Hws|].
  clear Hws. induction Hall as [|d item ds items He _ IH]; constructor.
  - now apply (emitted_keys include_content d).
  - exact IH.
Qed.

(** X11: the handler of lines 140-141 is never run: [fetch_page_content]
    does not raise, so wrapped in a [try] with any handler it does what it
    does alone. *)
Theorem content_fetch_handler_unreachable url max_length
    (handler : str -> M str) w :
  try_except (fetch_page_content url max_length) handler w
  = fetch_page_content url max_length w.
Proof.
  destruct (fetch_page_content_total url max_length w) as (s & w' & H).
  rewrite H. now apply try_except_ok.
Qed.

(** X12: when the limit is at least the number of result blocks, every block
    with a title anchor gives an item, in document order. *)
Theorem web_search_limit_not_reached
    query limit include_content w r w1 html soup :
  Z.of_nat (length (result_divs soup)) <= limit ->
  session_get search_url (search_params query) w = (Ok r, w1) ->
  status r = 200 -> text r = Ok html -> BeautifulSoup html = Ok soup ->
  exists results w',
    web_search query limit include_content w
    = (Ok (success_response query results), w')
    /\ Forall2 (emitted include_content)
         (List.filter has_title_anchor (result_divs soup)) results
    /\ length results
       = length (List.filter has_title_anchor (result_divs soup)).
Proof.
  intros Hl Hget Hs Ht Hp.
  destruct (web_search_page query limit include_content _ _ _ _ _
              Hget Hs Ht Hp) as (results & w' & Hws & Hall & _).
  rewrite firstn_slice_to in Hall by lia.
  rewrite firstn_all2 in Hall by lia.
  exists results, w'. split; [exact Hws|]. split; [exact Hall|].
  symmetry. apply (Forall2_length _ _ _ Hall).
Qed.

(** ** Headers *)

Lemma dict_of_headers_fold (all hs : list (str * str)) (k : str) :
  forall d : gmap str str,
  fold_left (fun d kv => <[kv.1 := headers_get all kv.1 []]> d) hs d !! k
  = if has_header_named k hs then Some (headers_get all k []) else d !! k.
Proof.
  induction hs as [|kv hs IH]; intros d; [reflexivity|].
  cbn [fold_left has_header_named existsb]. rewrite IH.
  fold (has_header_named k hs).
  destruct (has_header_named k hs); [now rewrite orb_true_r|].
  rewrite orb_false_r. destruct (bool_decide_reflect (kv.1 = k)) as [->|Hne].
  - apply lookup_insert_eq.
  - now apply lookup_insert_ne.
Qed.

Lemma dict_of_headers_lookup (hs : list (str * str)) (k : str) :
  dict_of_headers hs !! k
  = if has_header_named k hs then Some (headers_get hs k []) else None.
Proof. unfold dict_of_headers. now rewrite dict_of_headers_fold. Qed.

Lemma headers_get_up_to_case (hs hs' : list (str * str)) (k d : str) :
  same_headers_up_to_case hs hs' ->
  lower (headers_get hs k d) = lower (headers_get hs' k d).
Proof.
  induction 1 as [|[k1 v1] [k2 v2] hs hs' [Hk Hv] _ IH]; [reflexivity|].
  cbn [headers_get]. cbn [fst snd] in Hk, Hv. rewrite Hk.
  destruct (bool_decide (lower k2 = lower k)); [exact Hv|exact IH].
Qed.

(** X13: the HTML test of [fetch_page_content] (lines 29-30) does not
    depend on the letter case of the header names or of their values. *)
Theorem is_html_up_to_case (r r' : ClientResponse) :
  same_headers_up_to_case (headers r) (headers r') ->
  is_html r = is_html r'.
Proof.
  intros H. unfold is_html.
  now rewrite (headers_get_up_to_case _ _ _ _ H).
Qed.

(** ** The URL inspector again *)

Lemma url_info_body_head url w r w1 :
  session_head url w = (Ok r, w1) ->
  url_info_body url w
  = if contains (py "text/html") (lower (head_content_type r))
    then bind (fetch_page_content (resp_url r) 500)
              (fun content =>
                 ret (<[py "content_preview" := VStr content]>
                        (content_info_of r))) w1
    else (Ok (content_info_of r), w1).
Proof.
  intros H. unfold url_info_body. rewrite (bind_ok _ _ _ _ _ H).
  now destruct (contains _ _).
Qed.

(** X14: [url_info] answers with an error exactly when the HEAD request
    raises, and the error is [URL analysis failed: <reason>]; when the HEAD
    request is answered the result has no [error] key, whatever happens to
    the request for the preview. *)
Theorem url_info_error_iff_head_fails url w :
  (forall e w',
     session_head url w = (Raise e, w') ->
     url_info url w
     = (Ok {[ py "error" := VStr (py "URL analysis failed: " ++ e) ]}, w'))
  /\ (forall r w1,
        session_head url w = (Ok r, w1) ->
        exists info w2,
          url_info url w = (Ok info, w2)
          /\ info !! py "error" = None
          /\ info !! py "url" = Some (VStr (resp_url r))
          /\ info !! py "status_code" = Some (VInt (status r))).
Proof.
  split.
  - intros e w' H. unfold url_info.
    rewrite (try_except_raise _ _ _ w' e); [reflexivity|].
    unfold url_info_body. now apply bind_raise.
  - intros r w1 H. unfold url_info.
    destruct (contains (py "text/html") (lower (head_content_type r))) eqn:E.
    + destruct (fetch_page_content_total (resp_url r) 500 w1)
        as (s & w2 & Hf).
      exists (<[py "content_preview" := VStr s]> (content_info_of r)), w2.
      split; [|repeat split].
      apply try_except_ok. rewrite (url_info_body_head _ _ _ _ H), E.
      now rewrite (bind_ok _ _ _ _ _ Hf).
    + exists (content_info_of r), w1. split; [|repeat split].
      apply try_except_ok. now rewrite (url_info_body_head _ _ _ _ H), E.
Qed.

(** X15: the preview is attached exactly when the content type that
    [url_info] reports contains [text/html]; otherwise the page is not
    requested at all. *)
Theorem url_info_preview_iff_html url w r w1 :
  session_head url w = (Ok r, w1) ->
  exists info w2,
    url_info url w = (Ok info, w2)
    /\ (is_Some (info !! py "content_preview")
        <-> contains (py "text/html") (lower (head_content_type r)) = true)
    /\ (contains (py "text/html") (lower (head_content_type r)) = false ->
        info = content_info_of r /\ w2 = w1).
Proof.
  intros H. unfold url_info.
  destruct (contains (py "text/html") (lower (head_content_type r))) eqn:E.
  - destruct (fetch_page_content_total (resp_url r) 500 w1) as (s & w2 & Hf).
    exists (<[py "content_preview" := VStr s]> (content_info_of r)), w2.
    split; [|split].
    + apply try_except_ok. rewrite (url_info_body_head _ _ _ _ H), E.
      now rewrite (bind_ok _ _ _ _ _ Hf).
    + split; [reflexivity|]. intros _. rewrite lookup_insert_eq. eauto.
    + discriminate.
  - exists (content_info_of r), w1. split; [|split].
    + apply try_except_ok. now rewrite (url_info_body_head _ _ _ _ H), E.
    + split; [|discriminate]. intros [v Hv]. discriminate.
    + auto.
Qed.

(** X16: the content type that [url_info] reports is read from a plain
    dictionary: it is found only under the exact name [content-type].  With
    a header of that exact name it is the value [response.headers] gives for
    it; without one (for instance when the name is written [Content-Type])
    it is [unknown], and then there is no preview and no request for the
    page. *)
Theorem url_info_content_type_exact_name url w r w1 :
  session_head url w = (Ok r, w1) ->
  (has_header_named (py "content-type") (headers r) = true ->
   head_content_type r = headers_get (headers r) (py "content-type") [])
  /\ (has_header_named (py "content-type") (headers r) = false ->
      head_content_type r = py "unknown"
      /\ url_info url w = (Ok (content_info_of r), w1)
      /\ content_info_of r !! py "content_type" = Some (VStr (py "unknown"))
      /\ content_info_of r !! py "content_preview" = None).
Proof.
  intros H. unfold head_content_type, dict_get.
  rewrite dict_of_headers_lookup. split; intros Hn; rewrite Hn.
  - reflexivity.
  - assert (Hct : head_content_type r = py "unknown").
    { unfold head_content_type, dict_get.
      now rewrite dict_of_headers_lookup, Hn. }
    split; [reflexivity|]. split; [|split].
    + unfold url_info. apply try_except_ok.
      rewrite (url_info_body_head _ _ _ _ H), Hct. reflexivity.
    + unfold content_info_of. rewrite Hct. reflexivity.
    + reflexivity.
Qed.

(** ** The extractor again *)

(** X17: whatever [fetch_page_content] returns without a failure is short:
    when the request is answered with a status of at most three digits and
    nothing raises, the result has at most [max_length + 3] characters, or
    at most 16 when that is more. *)
Theorem fetch_page_content_length url max_length w g w' s w'' :
  0 <= max_length ->
  session_get url [] w = (Ok g, w') -> 0 <= status g <= 999 ->
  fetch_page_body url max_length w = (Ok s, w'') ->
  fetch_page_content url max_length w = (Ok s, w'')
  /\ len s <= Z.max (max_length + 3) 16.
Proof.
  intros Hm Hget Hst Hbody. split.
  { rewrite fetch_page_content_cases. now rewrite Hbody. }
  destruct (Z.eq_dec (status g) 200) as [H200|H200].
  - destruct (is_html g) eqn:Hh.
    + rewrite (fetch_page_body_html _ _ _ _ _ Hget H200 Hh) in Hbody.
      destruct (text g) as [html|e]; [|discriminate].
      destruct (BeautifulSoup html) as [soup|e]; [|discriminate].
      assert (s = extract_text soup max_length) as -> by congruence.
      pose proof (limit_length_le (clean_text soup) max_length Hm).
      unfold extract_text. lia.
    + rewrite (fetch_page_body_not_html _ _ _ _ _ Hget H200 Hh) in Hbody.
      assert (s = py "Non-HTML content") as -> by congruence.
      change (len (py "Non-HTML content")) with 16. lia.
  - rewrite (fetch_page_body_not_200 _ _ _ _ _ Hget H200) in Hbody.
    assert (s = py "HTTP " ++ str_of_Z (status g)) as -> by congruence.
    pose proof (str_of_Z_three_digits _ Hst) as Hd.
    rewrite len_app. change (len (py "HTTP ")) with 5. lia.
Qed.

(** ** The resource and the prompt *)


Lemma search_prompt_shape :
  exists after : str,
    forall topic,
      search_prompt topic
      = (10%N :: py "Please search for information about " ++ [34%N])
        ++ topic ++ 34%N :: after.
Proof.
  eexists. intros topic. unfold search_prompt. cbn [join app].
  repeat (rewrite <- app_assoc; cbn [app]). reflexivity.
Qed.

(** X19: the prompt carries the topic as it is, without escaping, between
    two double quotes in a text that is otherwise fixed; two topics with the
    same prompt are the same topic. *)
Theorem search_prompt_verbatim :
  exists after : str,
    (forall topic,
       search_prompt topic
       = (10%N :: py "Please search for information about " ++ [34%N])
         ++ topic ++ 34%N :: after)
    /\ (forall topic1 topic2,
          search_prompt topic1 = search_prompt topic2 -> topic1 = topic2).
Proof.
  destruct search_prompt_shape as [after H]. exists after.
  split; [exact H|]. intros t1 t2 E. rewrite !H in E.
  apply app_inv_head in E. now apply app_inv_tail in E.
Qed.

(** ** The content type that [url_info] misses *)

(** C8 (code defect): [url_info] does not include a [content_preview] for
    every HEAD answer with status 200 and an HTML content type.  When the
    header is not held under exactly the name [content-type] (as with
    [Content-Type]), the lookup of line 181 in the plain dictionary of line
    174 misses it: the result reports [unknown], the page is not requested
    and there is no [content_preview], although the test of line 29, which
    reads [response.headers] without regard to case, finds [text/html]. *)
Theorem url_info_misses_content_type_header url w r w1 :
  session_head url w = (Ok r, w1) ->
  status r = 200 ->
  is_html r = true ->
  has_header_named (py "content-type") (headers r) = false ->
  url_info url w = (Ok (content_info_of r), w1)
  /\ content_info_of r !! py "content_preview" = None
  /\ content_info_of r !! py "content_type" = Some (VStr (py "unknown")).
Proof.
  intros Hhead _ _ Hname.
  assert (Hct : head_content_type r = py "unknown").
  { unfold head_content_type, dict_get.
    now rewrite dict_of_headers_lookup, Hname. }
  split; [|split].
  - unfold url_info. apply try_except_ok.
    rewrite (url_info_body_head _ _ _ _ Hhead), Hct. reflexivity.
  - reflexivity.
  - unfold content_info_of. rewrite Hct. reflexivity.
Qed.

End Server.

(** * The properties on the fixtures *)

(** C1 as stated fails: a block without a title anchor takes one of the
    [limit] places.  With such a block first and two good blocks after it,
    [limit = 2] gives one item although two blocks of the page have a
    title anchor. *)
Lemma web_search_untitled_block_takes_a_place :
  web_search (serve html_reply) (parse_as page_untitled_first)
    (py "q") 2 false tt
  = (Ok {[ py "query" := VStr (py "q");
           py "results_count" := VInt 1;
           py "results" :=
             VList [result_item_of (py "Second") (py "https://example.org/")
                      (py "A snippet.")] ]}, tt)
  /\ length (List.filter has_title_anchor (result_divs page_untitled_first))
     = 2%nat
  /\ Z.min 2 2 <> 1.
Proof. repeat split. discriminate. Qed.

Lemma web_search_results_count_witness :
  exists results,
    fst (web_search (serve html_reply) (parse_as page_untitled_first)
           (py "q") 2 true tt)
    = Ok (success_response (py "q") results)
    /\ length results = 1%nat.
Proof.
  destruct (web_search_results_count (serve html_reply)
              (parse_as page_untitled_first) (py "q") 2 true tt
              html_reply tt [] page_untitled_first
              ltac:(lia) eq_refl eq_refl eq_refl eq_refl)
    as (results & w' & Hws & _ & _ & Hlen & _).
  exists results. rewrite Hws. split; [reflexivity|exact Hlen].
Defined.

(** C2 as stated fails: an element that is not a [div] is not taken for its
    class, and a class that differs from the pattern by letter case does
    not match; in both pages the code reads the [body]. *)
Lemma main_content_ignores_other_tags_and_case :
  main_content_node page_with_section
  = tag "body" [] [section_element; text_node "B"]
  /\ main_content_node_as_stated page_with_section = section_element
  /\ main_content_node page_with_upper_div
     = tag "body" [] [upper_div; text_node "B"]
  /\ main_content_node_as_stated page_with_upper_div = upper_div
  /\ clean_text page_with_section = py "A B"
  /\ clean_text page_with_upper_div = py "A B".
Proof. repeat split. Qed.

Lemma main_content_first_match_witness :
  main_content_node page_with_main = main_element
  /\ main_content_node page_with_section
     = tag "body" [] [section_element; text_node "B"].
Proof.
  split.
  - destruct (main_content_first_match page_with_main) as (Hmain & _).
    apply Hmain. apply find_Some_first_match. reflexivity.
  - destruct (main_content_first_match page_with_section)
      as (_ & _ & _ & Hbody & _).
    apply Hbody.
    + apply find_None_no_match. reflexivity.
    + apply find_None_no_match. reflexivity.
    + apply find_None_no_match. reflexivity.
    + apply find_Some_first_match. reflexivity.
Defined.

(** C5 as stated fails: the status is tested first, so a response that is
    neither 200 nor HTML gives [HTTP <status>]; and the content type is
    compared in lower case, so [TEXT/HTML] counts as HTML. *)
Lemma fetch_page_content_status_comes_first :
  contains (py "text/html")
    (headers_get (headers (reply 404 "application/pdf"))
       (py "content-type") []) = false
  /\ fetch_page_content (serve (reply 404 "application/pdf"))
       (parse_as (page [])) (py "https://example.com/a.pdf") 2000 tt
     = (Ok (py "HTTP 404"), tt)
  /\ py "HTTP 404" <> py "Non-HTML content"
  /\ contains (py "text/html")
       (headers_get (headers (reply 200 "TEXT/HTML"))
          (py "content-type") []) = false
  /\ fetch_page_content (serve (reply 200 "TEXT/HTML"))
       (parse_as (page [text_node "Hello"])) (py "https://example.com/")
       2000 tt
     = (Ok (py "Hello"), tt).
Proof. repeat split. discriminate. Qed.

Lemma fetch_page_content_guards_witness :
  fetch_page_content (serve (reply 503 "text/html"))
    (parse_as (page [])) (py "https://example.com/") 2000 tt
  = (Ok (py "HTTP 503"), tt)
  /\ fetch_page_content (serve (reply 200 "application/pdf"))
       (parse_as (page [])) (py "https://example.com/a.pdf") 2000 tt
     = (Ok (py "Non-HTML content"), tt).
Proof.
  split.
  - destruct (fetch_page_content_guards (serve (reply 503 "text/html"))
                (parse_as (page [])) (py "https://example.com/") 2000 tt
                (reply 503 "text/html") tt eq_refl) as (H & _).
    apply H. discriminate.
  - destruct (fetch_page_content_guards
                (serve (reply 200 "application/pdf"))
                (parse_as (page [])) (py "https://example.com/a.pdf") 2000 tt
                (reply 200 "application/pdf") tt eq_refl) as (_ & _ & H).
    apply H; reflexivity.
Defined.

Lemma fetch_page_content_never_raises_witness :
  fetch_page_content (refuse (py "Connection reset by peer"))
    (parse_as (page [])) (py "https://example.com/") 2000 tt
  = (Ok (py "Content extraction failed: Connection reset by peer"), tt)
  /\ fetch_page_content (serve html_reply)
       (fun _ => Raise (py "maximum recursion depth exceeded"))
       (py "https://example.com/") 2000 tt
     = (Ok (py "Content extraction failed: maximum recursion depth exceeded"),
        tt).
Proof.
  split.
  - destruct (fetch_page_content_never_raises
                (refuse (py "Connection reset by peer")) (parse_as (page []))
                (py "https://example.com/") 2000 tt) as (_ & _ & H & _).
    apply H. reflexivity.
  - destruct (fetch_page_content_never_raises (serve html_reply)
                (fun _ => Raise (py "maximum recursion depth exceeded"))
                (py "https://example.com/") 2000 tt) as (_ & _ & _ & _ & H).
    apply (H html_reply tt []); reflexivity.
Defined.

Lemma web_search_failure_shape_witness :
  web_search (refuse (py "Timeout")) (parse_as (page [])) (py "q") 5 true tt
  = (Ok {[ py "error" := VStr (py "Search failed: Timeout") ]}, tt).
Proof.
  destruct (web_search_failure_shape (refuse (py "Timeout"))
              (parse_as (page [])) (py "q") 5 true tt) as (H & _).
  apply (H (py "Timeout") tt). reflexivity.
Defined.

(** When the GET of the page raises, the preview is the failure message,
    which is as long as the reason makes it. *)
Lemma url_info_long_failure_preview :
  url_info (refuse (repeat 120%N 600)) (serve_head head_reply)
    (parse_as (page [])) (py "https://example.com/") tt
  = (Ok (<[py "content_preview" :=
             VStr (py "Content extraction failed: " ++ repeat 120%N 600)]>
           (content_info_of head_reply)), tt)
  /\ len (py "Content extraction failed: " ++ repeat 120%N 600) = 627
  /\ ~ 627 <= 503.
Proof. repeat split. lia. Qed.

Lemma url_info_content_preview_witness :
  url_info (serve html_reply) (serve_head head_reply)
    (parse_as (page [text_node "Hello,"; text_node " world "]))
    (py "https://example.com/") tt
  = (Ok (<[py "content_preview" := VStr (py "Hello, world")]>
           (content_info_of head_reply)), tt)
  /\ len (py "Hello, world") <= 503.
Proof.
  destruct (url_info_content_preview (serve html_reply)
              (serve_head head_reply)
              (parse_as (page [text_node "Hello,"; text_node " world "]))
              (py "https://example.com/") tt head_reply tt
              eq_refl eq_refl eq_refl)
    as (preview & w2 & Hinfo & _ & Hfetch & Hlen & _).
  assert (E : (Ok preview, w2) = (Ok (py "Hello, world"), tt))
    by (rewrite <- Hfetch; reflexivity).
  assert (preview = py "Hello, world") as -> by congruence.
  destruct w2. split; [exact Hinfo|].
  apply (Hlen html_reply tt (py "Hello, world") tt); [reflexivity|cbn; lia|reflexivity].
Defined.

Lemma url_info_misses_content_type_header_witness :
  is_html html_reply = true
  /\ url_info (serve html_reply) (serve_head html_reply)
       (parse_as (page [text_node "Hello"])) (py "https://example.com/") tt
     = (Ok (content_info_of html_reply), tt)
  /\ content_info_of html_reply !! py "content_preview" = None
  /\ content_info_of html_reply !! py "content_type"
     = Some (VStr (py "unknown")).
Proof.
  split; [reflexivity|].
  exact (url_info_misses_content_type_header (serve html_reply)
           (serve_head html_reply) (parse_as (page [text_node "Hello"]))
           (py "https://example.com/") tt html_reply tt
           eq_refl eq_refl eq_refl eq_refl).
Defined.

(** C9 as stated fails: a title anchor with a non-empty href is not enough.
    An anchor that holds only an image gives an empty title, and a redirect
    link with nothing between [uddg=] and [&] gives an empty URL. *)
Lemma web_search_empty_title_and_url :
  Forall (fun b => exists a,
            title_anchor b = Some a /\ attr_get a (py "href") [] <> [])
         [image_block; empty_target_block; block_three]
  /\ result_divs page_bare = [image_block; empty_target_block; block_three]
  /\ web_search (serve html_reply) (parse_as page_bare) (py "q") 2 false tt
     = (Ok {[ py "query" := VStr (py "q");
              py "results_count" := VInt 2;
              py "results" :=
                VList [result_item_of [] (py "https://example.org/")
                         (py "A snippet.");
                       result_item_of (py "Empty") [] (py "A snippet.")] ]},
        tt).
Proof.
  split; [|split; reflexivity].
  repeat constructor; eexists; (split; [reflexivity|discriminate]).
Qed.

Lemma block_one_well_formed : well_formed_block block_one.
Proof.
  eexists. split; [reflexivity|]. split.
  - exists (py "Example"). split; [now left|discriminate].
  - split; [discriminate|]. intros _.
    exists 104%N, (py "ttps%3A%2F%2Fexample.com%2Fx&rut=abc").
    repeat split. discriminate.
Qed.

Lemma block_direct_well_formed (href title : string) :
  py href <> [] -> startswith (py href) (py "/l/?uddg=") = false ->
  strip (py title) <> [] ->
  well_formed_block (result_block href title).
Proof.
  intros Hh Hs Ht. exists (title_link href title).
  split; [reflexivity|]. split.
  - exists (py title). split; [now left|exact Ht].
  - replace (attr_get (title_link href title) (py "href") [])
      with (py href) by reflexivity.
    split; [exact Hh|]. intros E. congruence.
Qed.

Lemma web_search_three_blocks_witness :
  exists item1 item2,
    web_search (serve html_reply) (parse_as page_three) (py "q") 2 false tt
    = (Ok {[ py "query" := VStr (py "q");
             py "results_count" := VInt 2;
             py "results" := VList [item1; item2] ]}, tt)
    /\ emitted false block_one item1 /\ emitted false block_two item2
    /\ item1 !! py "content" = None /\ item2 !! py "content" = None.
Proof.
  destruct (web_search_three_blocks (serve html_reply)
              (parse_as page_three) (py "q") tt html_reply tt []
              page_three block_one block_two block_three
              eq_refl eq_refl eq_refl eq_refl eq_refl
              block_one_well_formed
              (block_direct_well_formed "https://example.org/" "Second"
                 ltac:(discriminate) eq_refl ltac:(discriminate))
              (block_direct_well_formed "https://example.net/" "Third"
                 ltac:(discriminate) eq_refl ltac:(discriminate)))
    as (item1 & item2 & Hws & He1 & He2 & Hall).
  exists item1, item2.
  destruct (Forall_inv Hall) as (Hc1 & _).
  destruct (Forall_inv (Forall_inv_tail Hall)) as (Hc2 & _).
  auto.
Defined.

(** The same search, evaluated. *)
Example web_search_three_blocks_run :
  web_search (serve html_reply) (parse_as page_three) (py "q") 2 false tt
  = (Ok {[ py "query" := VStr (py "q");
           py "results_count" := VInt 2;
           py "results" :=
             VList [result_item_of (py "Example") (py "https://example.com/x")
                      (py "A snippet.");
                    result_item_of (py "Second") (py "https://example.org/")
                      (py "A snippet.")] ]}, tt).
Proof. reflexivity. Qed.

Lemma web_search_limit_zero_witness :
  web_search (serve html_reply) (parse_as page_three) (py "q") 0 true tt
  = (Ok {[ py "query" := VStr (py "q");
           py "results_count" := VInt 0;
           py "results" := VList [] ]}, tt).
Proof.
  exact (web_search_limit_zero (serve html_reply) (parse_as page_three)
           (py "q") true tt html_reply tt [] page_three
           eq_refl eq_refl eq_refl eq_refl).
Defined.

(** * The further properties on the fixtures *)

Lemma limit_length_stable_witness :
  limit_length (limit_length (py "a longer text") 5) 5 = py "a lon...".
Proof.
  destruct (limit_length_stable (py "a longer text") 5 ltac:(lia)) as [_ H].
  rewrite H. reflexivity.
Defined.

Lemma web_search_negative_limit_witness :
  web_search (serve html_reply) (parse_as page_three) (py "q") (-1) true tt
  = (Ok {[ py "query" := VStr (py "q");
           py "results_count" := VInt 0;
           py "results" := VList [] ]}, tt).
Proof.
  exact (web_search_negative_limit (serve html_reply) (parse_as page_three)
           (py "q") (-1) true tt html_reply tt [] page_three
           ltac:(lia) eq_refl eq_refl eq_refl eq_refl).
Defined.

Lemma web_search_page_failures_witness :
  web_search (serve (reply 503 "text/html")) (parse_as page_three)
    (py "q") 5 true tt
  = (Ok {[ py "error" := VStr (py "Search failed with status 503") ]}, tt)
  /\ web_search (serve html_reply)
       (fun _ => Raise (py "maximum recursion depth exceeded"))
       (py "q") 5 true tt
     = (Ok {[ py "error" :=
                VStr (py "Search failed: maximum recursion depth exceeded") ]},
        tt).
Proof.
  split.
  - destruct (web_search_page_failures (serve (reply 503 "text/html"))
                (parse_as page_three) (py "q") 5 true tt
                (reply 503 "text/html") tt eq_refl) as (H & _).
    apply H. discriminate.
  - destruct (web_search_page_failures (serve html_reply)
                (fun _ => Raise (py "maximum recursion depth exceeded"))
                (py "q") 5 true tt html_reply tt eq_refl) as (_ & _ & H).
    apply (H []); reflexivity.
Defined.

Lemma web_search_without_content_witness :
  exists results,
    web_search (serve_counting html_reply) (parse_as page_three)
      (py "q") 5 false 0%nat
    = (Ok (success_response (py "q") results), 1%nat)
    /\ Forall (fun item : gmap str str => item !! py "content" = None) results.
Proof.
  exact (web_search_without_content (serve_counting html_reply)
           (parse_as page_three) (py "q") 5 0%nat html_reply 1%nat []
           page_three eq_refl eq_refl eq_refl eq_refl).
Defined.

Lemma web_search_item_keys_witness :
  exists results w',
    web_search (serve html_reply) (parse_as page_three) (py "q") 5 true tt
    = (Ok (success_response (py "q") results), w')
    /\ Forall (fun item : gmap str str =>
                 exists title url snippet,
                   item !! py "title" = Some title
                   /\ item !! py "url" = Some url
                   /\ item !! py "snippet" = Some snippet
                   /\ (is_Some (item !! py "content")
                       <-> true = true /\ url <> []))
         results.
Proof.
  exact (web_search_item_keys (serve html_reply) (parse_as page_three)
           (py "q") 5 true tt html_reply tt [] page_three
           eq_refl eq_refl eq_refl eq_refl).
Defined.

Lemma web_search_limit_not_reached_witness :
  exists results,
    fst (web_search (serve html_reply) (parse_as page_untitled_first)
           (py "q") 5 false tt)
    = Ok (success_response (py "q") results)
    /\ length results = 2%nat.
Proof.
  destruct (web_search_limit_not_reached (serve html_reply)
              (parse_as page_untitled_first) (py "q") 5 false tt
              html_reply tt [] page_untitled_first
              ltac:(vm_compute; discriminate) eq_refl eq_refl eq_refl eq_refl)
    as (results & w' & Hws & _ & Hlen).
  exists results. rewrite Hws. split; [reflexivity|exact Hlen].
Defined.

Lemma is_html_up_to_case_witness :
  is_html (reply 200 "TEXT/HTML") = is_html head_reply
  /\ is_html head_reply = true.
Proof.
  split; [|reflexivity].
  apply is_html_up_to_case. constructor; [|constructor].
  split; reflexivity.
Defined.

Lemma url_info_error_iff_head_fails_witness :
  url_info (serve html_reply) (refuse_head (py "Cannot connect to host"))
    (parse_as (page [])) (py "https://example.com/") tt
  = (Ok {[ py "error" :=
             VStr (py "URL analysis failed: Cannot connect to host") ]}, tt)
  /\ exists info w2,
       url_info (refuse (py "Timeout")) (serve_head head_reply)
         (parse_as (page [])) (py "https://example.com/") tt
       = (Ok info, w2)
       /\ info !! py "error" = None.
Proof.
  split.
  - destruct (url_info_error_iff_head_fails (serve html_reply)
                (refuse_head (py "Cannot connect to host"))
                (parse_as (page [])) (py "https://example.com/") tt)
      as (H & _).
    apply (H (py "Cannot connect to host") tt). reflexivity.
  - destruct (url_info_error_iff_head_fails (refuse (py "Timeout"))
                (serve_head head_reply) (parse_as (page []))
                (py "https://example.com/") tt) as (_ & H).
    destruct (H head_reply tt eq_refl) as (info & w2 & Hu & He & _).
    exists info, w2. split; [exact Hu|exact He].
Defined.

Lemma url_info_preview_iff_html_witness :
  exists info w2,
    url_info (serve html_reply) (serve_head head_reply)
      (parse_as (page [text_node "Hello"])) (py "https://example.com/") tt
    = (Ok info, w2)
    /\ is_Some (info !! py "content_preview").
Proof.
  destruct (url_info_preview_iff_html (serve html_reply)
              (serve_head head_reply) (parse_as (page [text_node "Hello"]))
              (py "https://example.com/") tt head_reply tt eq_refl)
    as (info & w2 & Hu & Hp & _).
  exists info, w2. split; [exact Hu|]. apply Hp. reflexivity.
Defined.

Lemma url_info_content_type_exact_name_witness :
  url_info (serve html_reply) (serve_head (reply 200 "text/html"))
    (parse_as (page [text_node "Hello"])) (py "https://example.com/") tt
  = (Ok (content_info_of (reply 200 "text/html")), tt)
  /\ head_content_type head_reply = py "text/html".
Proof.
  split.
  - destruct (url_info_content_type_exact_name (serve html_reply)
                (serve_head (reply 200 "text/html"))
                (parse_as (page [text_node "Hello"]))
                (py "https://example.com/") tt (reply 200 "text/html") tt
                eq_refl) as (_ & H).
    destruct (H eq_refl) as (_ & Hu & _). exact Hu.
  - destruct (url_info_content_type_exact_name (serve html_reply)
                (serve_head head_reply) (parse_as (page []))
                (py "https://example.com/") tt head_reply tt eq_refl)
      as (H & _).
    rewrite (H eq_refl). reflexivity.
Defined.

Lemma fetch_page_content_length_witness :
  fetch_page_content (serve html_reply)
    (parse_as (page [text_node "Hello, world"])) (py "https://example.com/")
    2 tt
  = (Ok (py "He..."), tt)
  /\ len (py "He...") <= 16.
Proof.
  exact (fetch_page_content_length (serve html_reply)
           (parse_as (page [text_node "Hello, world"]))
           (py "https://example.com/") 2 tt html_reply tt (py "He...") tt
           ltac:(lia) eq_refl ltac:(cbn; lia) eq_refl).
Defined.

(** * The string functions on examples *)

Example unquote_reference :
  unquote (py "https%3A%2F%2Fexample.com%2Fx") = py "https://example.com/x".
Proof. reflexivity. Qed.

Example unquote_utf8 :
  unquote (py "%E2%82%AC%zz%C3") = [8364; 37; 122; 122; 65533]%N.
Proof. reflexivity. Qed.

Example split_amp : split (py "a&&b&") (py "&") = [py "a"; []; py "b"; []].
Proof. reflexivity. Qed.

Example split_uddg :
  split (py "/l/?uddg=x_uddg=y") (py "uddg=") = [py "/l/?"; py "x_"; py "y"].
Proof. reflexivity. Qed.

Example collapse_white_space :
  strip (sub_ws ([32; 97; 9; 10; 160; 98; 32; 32]%N)) = py "a b".
Proof. reflexivity. Qed.

Example str_of_Z_examples :
  str_of_Z 404 = py "404" /\ str_of_Z (-7) = py "-7" /\ str_of_Z 0 = py "0".
Proof. repeat split. Qed.

Example slice_to_examples :
  slice_to (py "abcdef") 2 = py "ab" /\ slice_to (py "abcdef") (-2) = py "abcd"
  /\ slice_to (py "ab") (-5) = [] /\ slice_to (py "ab") 9 = py "ab".
Proof. repeat split. Qed.

Example class_tokens_example :
  nonwhitespace_findall (py "  result   results_links ")
  = [py "result"; py "results_links"].
Proof. reflexivity. Qed.

Example result_divs_page_three :
  result_divs page_three = [block_one; block_two; block_three].
Proof. reflexivity. Qed.

Example dict_of_headers_exact_names :
  head_content_type (reply 200 "text/html") = py "unknown"
  /\ head_content_type head_reply = py "text/html".
Proof. repeat split. Qed.

Example get_text_skips_comments_and_blanks :
  get_text (py " ")
    (tag "p" [] [text_node " a "; Comment (py "hidden"); text_node "  ";
                 tag "b" [] [text_node "c"]])
  = py "a c".
Proof. reflexivity. Qed.

Example scripts_are_removed :
  clean_text
    (page [tag "script" [] [text_node "var x;"]; text_node "Shown";
           tag "style" [] [text_node "p {}"]])
  = py "Shown".
Proof. reflexivity. Qed.

(** One request for the results page, and one per item when the content is
    asked for. *)
Example web_search_requests :
  snd (web_search (serve_counting html_reply) (parse_as page_three)
         (py "q") 5 true 0%nat) = 4%nat
  /\ snd (web_search (serve_counting html_reply) (parse_as page_three)
            (py "q") 5 false 0%nat) = 1%nat.
Proof. split; reflexivity. Qed.
